(** * A structural auditor for LaTeX tables: [auditor.py]

    The module inspects a piece of LaTeX, finds the outermost [tabular]
    environment, counts the columns its specification declares, compares
    every data row with that count and assembles a report.  This file embeds
    the module in Rocq and proves properties of the embedding.

    Python strings are sequences of Unicode code points: a character is a
    code point in [N] and a [str] is a list of them.  The string methods and
    the part of [re] the module uses are modelled first, then the module's
    functions under their own names. *)

From Stdlib Require Import Strings.String Strings.Ascii Numbers.DecimalString.
From Stdlib Require Import List NArith ZArith Arith Lia Bool Sorted.
Import ListNotations.

Set Implicit Arguments.
Local Open Scope list_scope.

(* ================================================================== *)
(** * Definitions *)
(* ================================================================== *)

(** ** Python [str] *)

Module PyStr.

Definition char := N.
Definition str := list char.

(** A literal of the source, given as its characters (all of them ASCII). *)
Definition lit (s : string) : str :=
  List.map N_of_ascii (list_ascii_of_string s).
Arguments lit s%_string.

Definition backslash : char := 92%N.

Fixpoint eqb (a b : str) : bool :=
  match a, b with
  | [], [] => true
  | x :: a', y :: b' => N.eqb x y && eqb a' b'
  | _, _ => false
  end.

(** [s.startswith(p)] *)
Fixpoint startswith (p s : str) : bool :=
  match p, s with
  | [], _ => true
  | x :: p', y :: s' => N.eqb x y && startswith p' s'
  | _ :: _, [] => false
  end.

(** [sub in s] *)
Fixpoint contains (sub s : str) : bool :=
  startswith sub s
  || match s with
     | [] => false
     | _ :: s' => contains sub s'
     end.

(** [s[i:j]] for [0 <= i] and [0 <= j]: empty when [j <= i], cut at the
    end of [s]. *)
Definition slice (s : str) (i j : nat) : str := firstn (j - i) (skipn i s).

(** The scans below walk the string once.  When an occurrence of the
    searched text is found at the current position, the characters it is
    made of are passed over: [skip] counts how many of them are left.
    This is the left-to-right, non-overlapping search of [str.replace],
    [str.count] and [str.split].  The searched text is never empty in
    this module (Python treats an empty one apart). *)

(** [s.replace(old, new)] *)
Fixpoint replace_from (old new : str) (skip : nat) (s : str) : str :=
  match s with
  | [] => []
  | x :: s' =>
      match skip with
      | S n => replace_from old new n s'
      | O =>
          if startswith old s
          then new ++ replace_from old new (length old - 1) s'
          else x :: replace_from old new 0 s'
      end
  end.

Definition replace (old new s : str) : str := replace_from old new 0 s.

(** [s.count(sub)] *)
Fixpoint count_from (sub : str) (skip : nat) (s : str) : nat :=
  match s with
  | [] => 0
  | _ :: s' =>
      match skip with
      | S n => count_from sub n s'
      | O =>
          if startswith sub s
          then S (count_from sub (length sub - 1) s')
          else count_from sub 0 s'
      end
  end.

Definition count (sub s : str) : nat := count_from sub 0 s.

(** [s.split(sep)]: the piece being read and the pieces after it. *)
Fixpoint split_from (sep : str) (skip : nat) (s : str) : str * list str :=
  match s with
  | [] => ([], [])
  | x :: s' =>
      match skip with
      | S n => split_from sep n s'
      | O =>
          if startswith sep s
          then let (piece, pieces) := split_from sep (length sep - 1) s' in
               ([], piece :: pieces)
          else let (piece, pieces) := split_from sep 0 s' in
               (x :: piece, pieces)
      end
  end.

Definition split (sep s : str) : list str :=
  let (piece, pieces) := split_from sep 0 s in piece :: pieces.

(** [c.isspace()]: the code points Python strips as white space. *)
Definition isspace (c : char) : bool :=
  ((9 <=? c) && (c <=? 13) || (28 <=? c) && (c <=? 32)
   || (c =? 133) || (c =? 160) || (c =? 5760)
   || (8192 <=? c) && (c <=? 8202)
   || (c =? 8232) || (c =? 8233) || (c =? 8239) || (c =? 8287)
   || (c =? 12288))%N.

Fixpoint lstrip (s : str) : str :=
  match s with
  | [] => []
  | x :: s' => if isspace x then lstrip s' else s
  end.

Definition rstrip (s : str) : str := rev (lstrip (rev s)).

(** [s.strip()] *)
Definition strip (s : str) : str := rstrip (lstrip s).

(** The line boundaries of [str.splitlines]. *)
Definition islinebreak (c : char) : bool :=
  ((10 <=? c) && (c <=? 13) || (28 <=? c) && (c <=? 30)
   || (c =? 133) || (c =? 8232) || (c =? 8233))%N.

(** [s.splitlines()]: a carriage return followed by a line feed is one
    boundary; a boundary at the very end opens no further line. *)
Fixpoint splitlines_from (line : str) (s : str) : list str :=
  match s with
  | [] => match line with [] => [] | _ :: _ => [line] end
  | x :: s' =>
      if islinebreak x
      then line ::
           match s' with
           | y :: s'' =>
               if ((x =? 13) && (y =? 10))%N
               then splitlines_from [] s''
               else splitlines_from [] s'
           | [] => splitlines_from [] s'
           end
      else splitlines_from (line ++ [x]) s'
  end.

Definition splitlines (s : str) : list str := splitlines_from [] s.

(** [str(n)] for a non-negative integer. *)
Definition of_nat (n : nat) : str := lit (NilZero.string_of_uint (Nat.to_uint n)).

(** [str(b)] for a Boolean. *)
Definition of_bool (b : bool) : str := if b then lit "True" else lit "False".

(** [sep.join(l)] *)
Fixpoint join (sep : str) (l : list str) : str :=
  match l with
  | [] => []
  | [a] => a
  | a :: l' => a ++ sep ++ join sep l'
  end.

(** [str(l)] for a list of non-negative integers, as an f-string prints it. *)
Definition of_nat_list (l : list nat) : str :=
  lit "[" ++ join (lit ", ") (List.map of_nat l) ++ lit "]".

End PyStr.

Import PyStr.

(** ** Failure *)

(** The exceptions this module could raise: asking a match object for a
    group it does not have. *)
Inductive exn := IndexError.

Inductive result (A : Type) :=
| Ok (a : A)
| Raise (e : exn).
Arguments Ok {A} a.
Arguments Raise {A} e.

Definition bind {A B} (m : result A) (f : A -> result B) : result B :=
  match m with
  | Ok a => f a
  | Raise e => Raise e
  end.

Notation "x <- m ;; f" := (bind m (fun x => f))
  (at level 61, m at next level, right associativity).

(** ** The part of [re] the module uses *)

Module Re.

(** Patterns.  Repetition is only ever applied to a character class in
    the patterns of this module. *)
Inductive regex :=
| Eps
| Chr (c : char)                  (* a literal character *)
| Cls (p : char -> bool)          (* a character class *)
| Cat (r1 r2 : regex)             (* r1r2 *)
| Alt (r1 r2 : regex)             (* r1|r2 *)
| Opt (r : regex)                 (* r or nothing, greedy *)
| StarCls (p : char -> bool)      (* a class repeated, greedy *)
| Grp (r : regex).                (* a capturing group *)

Arguments Chr c%_N.

(** A run of literal characters. *)
Fixpoint Lits (l : str) : regex :=
  match l with
  | [] => Eps
  | c :: l' => Cat (Chr c) (Lits l')
  end.

Definition none_of (cs : str) : char -> bool :=
  fun c => negb (existsb (N.eqb c) cs).

(** Under [re.IGNORECASE] an ASCII letter of a class also stands for its
    other case and, as the documentation of [re] lists, for four letters
    outside ASCII: U+0130 and U+0131 with [i], U+017F with [s], U+212A
    with [k]. *)
Definition ascii_lower (c : char) : char :=
  if ((65 <=? c) && (c <=? 90))%N then (c + 32)%N else c.

Definition same_letter_ignorecase (x c : char) : bool :=
  let x := ascii_lower x in
  (N.eqb (ascii_lower c) x
   || (N.eqb x 105 && (N.eqb c 304 || N.eqb c 305))
   || (N.eqb x 115 && N.eqb c 383)
   || (N.eqb x 107 && N.eqb c 8490))%N.

Definition one_of_ignorecase (cs : str) : char -> bool :=
  fun c => existsb (fun x => same_letter_ignorecase x c) cs.

(** The backtracking matcher.  [n] characters have been consumed since
    the match began, [s] is what is left of the subject, [g] the text of
    the groups closed so far; [k] is what remains to be matched.  The
    first success in the order Python tries the alternatives is
    returned. *)
Fixpoint run {A} (r : regex) (n : nat) (s : str) (g : list str)
         (k : nat -> str -> list str -> option A) : option A :=
  match r with
  | Eps => k n s g
  | Chr c =>
      match s with
      | x :: s' => if N.eqb x c then k (S n) s' g else None
      | [] => None
      end
  | Cls p =>
      match s with
      | x :: s' => if p x then k (S n) s' g else None
      | [] => None
      end
  | Cat r1 r2 => run r1 n s g (fun n1 s1 g1 => run r2 n1 s1 g1 k)
  | Alt r1 r2 =>
      match run r1 n s g k with
      | Some a => Some a
      | None => run r2 n s g k
      end
  | Opt r1 =>
      match run r1 n s g k with
      | Some a => Some a
      | None => k n s g
      end
  | StarCls p =>
      (fix star (n : nat) (s : str) {struct s} : option A :=
         match s with
         | x :: s' =>
             if p x
             then match star (S n) s' with
                  | Some a => Some a
                  | None => k n s g
                  end
             else k n s g
         | [] => k n s g
         end) n s
  | Grp r1 =>
      run r1 n s g (fun n1 s1 g1 => k n1 s1 (g1 ++ [firstn (n1 - n) s]))
  end.

(** The number of groups a match of [r] closes, when every way of matching
    [r] closes the same number of them. *)
Fixpoint groups_closed (r : regex) : option nat :=
  match r with
  | Eps | Chr _ | Cls _ | StarCls _ => Some 0
  | Cat r1 r2 =>
      match groups_closed r1, groups_closed r2 with
      | Some a, Some b => Some (a + b)
      | _, _ => None
      end
  | Alt r1 r2 =>
      match groups_closed r1, groups_closed r2 with
      | Some a, Some b => if a =? b then Some a else None
      | _, _ => None
      end
  | Opt r1 =>
      match groups_closed r1 with
      | Some 0 => Some 0
      | _ => None
      end
  | Grp r1 => option_map S (groups_closed r1)
  end.

(** Whether [r] may match the empty string. *)
Fixpoint nullable (r : regex) : bool :=
  match r with
  | Eps | Opt _ | StarCls _ => true
  | Chr _ | Cls _ => false
  | Cat r1 r2 => nullable r1 && nullable r2
  | Alt r1 r2 => nullable r1 || nullable r2
  | Grp r1 => nullable r1
  end.

(** A match object: [m.start()], [m.end()] and the text of its groups,
    group 1 first. *)
Record Match := { m_start : nat; m_end : nat; m_groups : list str }.

(** [m.group(i)] for [i >= 1].  The groups are kept in the order they
    close; a match that closed fewer than [i] groups has no group [i] to
    give, which is the failure modelled here.  ([groups_closed] below
    tells how many groups every match of a pattern closes.) *)
Definition group (i : nat) (m : Match) : result str :=
  match nth_error (m_groups m) (i - 1) with
  | Some t => Ok t
  | None => Raise IndexError
  end.

(** A match that begins exactly where [s] begins: its length and groups. *)
Definition match_here (r : regex) (s : str) : option (nat * list str) :=
  run r 0 s [] (fun n _ g => Some (n, g)).

Definition found (pos : nat) (ng : nat * list str) : Match :=
  {| m_start := pos; m_end := pos + fst ng; m_groups := snd ng |}.

(** [pattern.search(text)]: the leftmost position with a match; [s] is
    the subject from [pos] on. *)
Fixpoint search_from (r : regex) (pos : nat) (s : str) : option Match :=
  match match_here r s with
  | Some ng => Some (found pos ng)
  | None =>
      match s with
      | [] => None
      | _ :: s' => search_from r (S pos) s'
      end
  end.

Definition search (r : regex) (text : str) : option Match :=
  search_from r 0 text.

(** [pattern.finditer(text, pos)]: the matches from left to right, none
    overlapping another; [skip] counts the characters of the last match
    still to pass.  No pattern of this module matches the empty string
    (see [match_here_nonempty] below), so the rules of [re] for empty
    matches never come into play. *)
Fixpoint finditer_from (r : regex) (skip : nat) (pos : nat) (s : str)
  : list Match :=
  match s with
  | [] =>
      match skip, match_here r [] with
      | O, Some ng => [found pos ng]
      | _, _ => []
      end
  | _ :: s' =>
      match skip with
      | S n => finditer_from r n (S pos) s'
      | O =>
          match match_here r s with
          | Some ng => found pos ng :: finditer_from r (fst ng - 1) (S pos) s'
          | None => finditer_from r 0 (S pos) s'
          end
      end
  end.

Definition finditer (r : regex) (text : str) (pos : nat) : list Match :=
  finditer_from r 0 pos (skipn pos text).

(** [pattern.findall(text)] for a pattern without groups: the matched
    texts. *)
Definition findall (r : regex) (text : str) : list str :=
  List.map (fun m => slice text (m_start m) (m_end m)) (finditer r text 0).

(** [pattern.sub(repl, text)] with a replacement free of escapes. *)
Fixpoint sub_from (r : regex) (repl : str) (skip : nat) (s : str) : str :=
  match s with
  | [] => []
  | x :: s' =>
      match skip with
      | S n => sub_from r repl n s'
      | O =>
          match match_here r s with
          | Some ng => repl ++ sub_from r repl (fst ng - 1) s'
          | None => x :: sub_from r repl 0 s'
          end
      end
  end.

Definition sub (r : regex) (repl text : str) : str := sub_from r repl 0 text.

End Re.

Import Re.

(** ** [auditor.py] *)

(** The pattern of a [tabular] that opens with its column specification:
    the text [\begin{tabular}]; then, optionally and greedily, a placement
    argument (an opening bracket, any run of characters other than a
    closing bracket, a closing bracket); then an opening brace, group 1
    (any run of characters other than a closing brace) and a closing
    brace.  It is compiled with [re.S], which only changes the meaning of
    a dot, and the pattern has none.  A brace that opens no counted
    repetition is a literal brace for [re]. *)
Definition TABULAR_BEGIN_RE : regex :=
  Cat (Lits (lit "\begin{tabular}"))
 (Cat (Opt (Cat (Chr 91) (Cat (StarCls (none_of (lit "]"))) (Chr 93))))
 (Cat (Chr 123)
 (Cat (Grp (StarCls (none_of (lit "}"))))
      (Chr 125)))).

(** The pattern of a marker: a backslash, group 1 ([begin] or [end], tried
    in this order) and the text [{tabular}]. *)
Definition TABULAR_TOKEN_RE : regex :=
  Cat (Chr backslash)
 (Cat (Grp (Alt (Lits (lit "begin")) (Lits (lit "end"))))
      (Lits (lit "{tabular}"))).

Record TabularBlock := { column_spec : str; body : str }.

(** The loop of [_extract_outer_tabular] over the markers: [depth] counts
    the environments open; the loop breaks at the first [end] that brings
    it back to zero and leaves the offset of that marker in [end_idx]. *)
Fixpoint scan_tokens (depth : Z) (tokens : list Match) : result (option nat) :=
  match tokens with
  | [] => Ok None
  | token :: tokens' =>
      kind <- group 1 token ;;
      if eqb kind (lit "begin")
      then scan_tokens (depth + 1) tokens'
      else
        let depth := (depth - 1)%Z in
        if (depth =? 0)%Z
        then Ok (Some (m_start token))
        else scan_tokens depth tokens'
  end.

Definition _extract_outer_tabular (latex_code : str)
  : result (option TabularBlock) :=
  match search TABULAR_BEGIN_RE latex_code with
  | None => Ok None
  | Some begin_match =>
      end_idx <- scan_tokens 0
                   (finditer TABULAR_TOKEN_RE latex_code (m_start begin_match)) ;;
      match end_idx with
      | None => Ok None
      | Some end_idx =>
          let body := slice latex_code (m_end begin_match) end_idx in
          spec <- group 1 begin_match ;;
          Ok (Some {| column_spec := spec; body := body |})
      end
  end.

(** The pattern of a spacing tweak: an at sign, an opening brace, any run
    of characters other than a closing brace, a closing brace. *)
Definition SPACING_TWEAK_RE : regex :=
  Cat (Chr 64) (Cat (Chr 123) (Cat (StarCls (none_of (lit "}"))) (Chr 125))).

(** The class of the letters l, c, r, p, m, b, X and S, compiled with
    [re.IGNORECASE]. *)
Definition ALIGNMENT_TOKEN_RE : regex :=
  Cls (one_of_ignorecase (lit "lcrpmbXS")).

(** [n or None] *)
Definition or_None (n : nat) : option nat :=
  match n with
  | O => None
  | S _ => Some n
  end.

Definition _count_columns_from_spec (column_spec : str) : option nat :=
  let cleaned := sub SPACING_TWEAK_RE [] column_spec in
  let cleaned := replace (lit "|") [] cleaned in
  let tokens := findall ALIGNMENT_TOKEN_RE cleaned in
  or_None (length tokens).

Definition nonempty {A} (l : list A) : bool :=
  match l with
  | [] => false
  | _ :: _ => true
  end.

(** The loop of [_find_column_mismatches] over the rows, with the two
    variables it updates. *)
Fixpoint scan_rows (expected_cols : nat) (rows : list str)
         (data_row_index : nat) (mismatched_rows : list nat) : list nat :=
  match rows with
  | [] => mismatched_rows
  | row :: rows' =>
      if startswith (lit "\") row || contains (lit "toprule") row
         || contains (lit "midrule") row || contains (lit "bottomrule") row
      then scan_rows expected_cols rows' data_row_index mismatched_rows
      else
      if contains (lit "\begin{tabular") row || contains (lit "\end{tabular") row
      then scan_rows expected_cols rows' data_row_index mismatched_rows
      else
        let data_row_index := data_row_index + 1 in
        let sanitized := replace (lit "\&") [] row in
        let col_count := count (lit "&") sanitized + 1 in
        if negb (col_count =? expected_cols)
        then scan_rows expected_cols rows' data_row_index
               (mismatched_rows ++ [data_row_index])
        else scan_rows expected_cols rows' data_row_index mismatched_rows
  end.

Definition _find_column_mismatches (tabular_block : TabularBlock)
           (expected_cols : nat) : list nat :=
  let rows :=
    List.map strip
      (filter (fun row => nonempty (strip row))
         (split (lit "\\") (body tabular_block))) in
  scan_rows expected_cols rows 0 [].

Definition _count_columns_in_line (line : option str) : option nat :=
  match line with
  | None | Some [] => None
  | Some line =>
      let sanitized := replace (lit "\&") [] line in
      if negb (contains (lit "&") sanitized)
      then None
      else Some (count (lit "&") sanitized + 1)
  end.

(** The dictionary [audit_latex_table] returns, one field per key. *)
Record report := {
  has_caption : bool;
  has_label : bool;
  has_centering : bool;
  uses_full_booktabs : bool;
  column_mismatch_rows : list nat;
  expected_columns : option nat;
  needs_tabular_scaffold : bool;
  placeholder_headers : list str;
  issues : list str;
  suggestions : list str
}.

(** Truth of an optional integer: [None] and [0] are false. *)
Definition truthy (o : option nat) : bool :=
  match o with
  | Some (S _) => true
  | _ => false
  end.

(** [a or b] on optional integers *)
Definition or_else (a b : option nat) : option nat :=
  if truthy a then a else b.

(** [a or b or 3]: the last operand is returned as it is. *)
Definition or_default (a : option nat) (d : nat) : nat :=
  match a with
  | Some (S _ as n) => n
  | _ => d
  end.

(** The line the fallback looks at: the first line with a cell separator
    that is not a comment. *)
Definition first_line_with_amp (latex_code : str) : option str :=
  find (fun line =>
          contains (lit "&") line
          && negb (startswith (lit "%") (strip line)))
       (splitlines latex_code).

(** What [audit_latex_table] prints, line by line. *)
Definition printed_lines (has_caption has_label has_centering booktabs : bool)
           (issues : list str) : list str :=
  (lit "[Auditor Tool]: Results -> caption=" ++ of_bool has_caption
   ++ lit ", label=" ++ of_bool has_label
   ++ lit ", centering=" ++ of_bool has_centering
   ++ lit ", booktabs=" ++ of_bool booktabs)
  :: (if nonempty issues
      then lit "[Auditor Tool]: Issues detected:"
           :: List.map (fun issue => lit "  - " ++ issue) issues
      else [lit "[Auditor Tool]: No structural issues detected."]).

(** [audit_latex_table]: the lines printed and the dictionary returned.
    The two lists [issues] and [suggestions] are threaded together, every
    [if] of the source that appends to them is one conditional here. *)
Definition audit_latex_table (latex_code : str) : result (list str * report) :=
  let has_caption := contains (lit "\caption") latex_code in
  let has_label := contains (lit "\label") latex_code in
  let has_centering := contains (lit "\centering") latex_code in
  let uses_toprule := contains (lit "\toprule") latex_code in
  let uses_midrule := contains (lit "\midrule") latex_code in
  let uses_bottomrule := contains (lit "\bottomrule") latex_code in
  let has_bold_header := contains (lit "\textbf") latex_code in

  let issues : list str := [] in
  let suggestions : list str := [] in
  let placeholder_headers : list str := [] in
  let needs_tabular_scaffold := false in

  let '(issues, suggestions) :=
    if negb has_caption
    then (issues ++ [lit "Caption missing."],
          suggestions
            ++ [lit "Add a descriptive caption so readers understand the table."])
    else (issues, suggestions) in

  let '(issues, suggestions) :=
    if negb has_label
    then (issues ++ [lit "Label missing."],
          suggestions ++ [lit "Add a label for cross-referencing."])
    else (issues, suggestions) in

  let '(issues, suggestions) :=
    if negb has_centering
    then (issues ++ [lit "Table is not centered."],
          suggestions
            ++ [lit "Include \centering inside the table environment."])
    else (issues, suggestions) in

  let '(issues, suggestions) :=
    if negb (uses_toprule && uses_midrule && uses_bottomrule)
    then (issues ++ [lit "Booktabs rules are incomplete."],
          suggestions
            ++ [lit "Use \toprule, \midrule, and \bottomrule for consistent styling."])
    else (issues, suggestions) in

  tabular_block <- _extract_outer_tabular latex_code ;;
  let column_mismatch_rows : list nat := [] in
  let expected_cols : option nat := None in

  let '(expected_cols, column_mismatch_rows, needs_tabular_scaffold,
        issues, suggestions) :=
    match tabular_block with
    | Some tabular_block =>
        let expected_cols :=
          _count_columns_from_spec (column_spec tabular_block) in
        match expected_cols with
        | Some (S _ as cols) =>
            let column_mismatch_rows :=
              _find_column_mismatches tabular_block cols in
            if nonempty column_mismatch_rows
            then (expected_cols, column_mismatch_rows, needs_tabular_scaffold,
                  issues
                    ++ [lit "Column count mismatch on data rows: "
                        ++ of_nat_list column_mismatch_rows ++ lit "."],
                  suggestions
                    ++ [lit "Ensure each row has the same number of cells as the column spec."])
            else (expected_cols, column_mismatch_rows, needs_tabular_scaffold,
                  issues, suggestions)
        | _ => (expected_cols, column_mismatch_rows, needs_tabular_scaffold,
                issues, suggestions)
        end
    | None =>
        (expected_cols, column_mismatch_rows, true,
         issues ++ [lit "Tabular environment missing."],
         suggestions
           ++ [lit "Wrap the rows in \begin{tabular}{...} ... \end{tabular} with a proper column spec."])
    end in

  let inferred_cols : option nat := None in
  let '(inferred_cols, expected_cols) :=
    if truthy expected_cols
    then (expected_cols, expected_cols)
    else
      let inferred_cols :=
        _count_columns_in_line (first_line_with_amp latex_code) in
      match inferred_cols with
      | Some _ => (inferred_cols, inferred_cols)
      | None => (inferred_cols, expected_cols)
      end in

  let '(issues, suggestions, placeholder_headers) :=
    if negb has_bold_header
    then
      let col_count_for_headers :=
        or_default (or_else expected_cols inferred_cols) 3 in
      (issues ++ [lit "Header row missing or not emphasized."],
       suggestions
         ++ [lit "Add a bold header row so each column has a descriptive name."],
       List.map (fun i => lit "Column " ++ of_nat (i + 1))
         (seq 0 (Nat.max 1 col_count_for_headers)))
    else (issues, suggestions, placeholder_headers) in

  Ok (printed_lines has_caption has_label has_centering
        (uses_toprule && uses_midrule && uses_bottomrule) issues,
      {| has_caption := has_caption;
         has_label := has_label;
         has_centering := has_centering;
         uses_full_booktabs := uses_toprule && uses_midrule && uses_bottomrule;
         column_mismatch_rows := column_mismatch_rows;
         expected_columns := expected_cols;
         needs_tabular_scaffold := needs_tabular_scaffold;
         placeholder_headers := placeholder_headers;
         issues := issues;
         suggestions := suggestions |}).

(** ** Notions the statements below are written in *)

(** The cells of a row as the specification counts them: separators, less
    the escaped ones, plus one. *)
Definition cells (row : str) : nat :=
  count (lit "&") row - count (lit "\&") row + 1.

(** A row that is no data row: it begins with a backslash, or holds a rule
    keyword or a [tabular] marker. *)
Definition structural (row : str) : bool :=
  startswith (lit "\") row || contains (lit "toprule") row
  || contains (lit "midrule") row || contains (lit "bottomrule") row
  || contains (lit "\begin{tabular") row || contains (lit "\end{tabular") row.

(** The column count the fallback of [audit_latex_table] reads off the
    text. *)
Definition fallback_count (latex_code : str) : option nat :=
  _count_columns_in_line (first_line_with_amp latex_code).

(** The column count the extraction resolves: the count of the column
    specification of the outermost [tabular], when there is one. *)
Definition extraction_count (latex_code : str) : result (option nat) :=
  tabular_block <- _extract_outer_tabular latex_code ;;
  Ok match tabular_block with
     | Some tabular_block => _count_columns_from_spec (column_spec tabular_block)
     | None => None
     end.

(** No match of [r] starts at an offset of [text] below [i]. *)
Definition no_match_before (r : regex) (text : str) (i : nat) : bool :=
  forallb (fun j => match match_here r (skipn j text) with
                    | Some _ => false
                    | None => true
                    end) (seq 0 i).

(** Neither marker occurs in [s]. *)
Definition marker_free (s : str) : bool :=
  negb (contains (lit "\begin{tabular}") s)
  && negb (contains (lit "\end{tabular}") s).

(** The opening of a [tabular]: the marker, the placement argument when
    there is one, the column specification in braces. *)
Definition opening (placement : option str) (spec : str) : str :=
  lit "\begin{tabular}"
  ++ match placement with
     | Some p => lit "[" ++ p ++ lit "]"
     | None => []
     end
  ++ lit "{" ++ spec ++ lit "}".

(** The arguments are as the pattern reads them: no closing bracket inside
    the placement, no closing brace inside the specification. *)
Definition plain_args (placement : option str) (spec : str) : bool :=
  match placement with
  | Some p => forallb (none_of (lit "]")) p
  | None => true
  end
  && forallb (none_of (lit "}")) spec.

(** The arguments of an opening, that is the opening without its marker. *)
Definition opening_args (placement : option str) (spec : str) : str :=
  skipn 15 (opening placement spec).

(** A [tabular] with one [tabular] nested in it: what lies between its
    opening and its closing marker, and a text that holds it. *)
Definition nested_body (b1 b2 b3 : str) : str :=
  b1 ++ (lit "\begin{tabular}" ++ b2 ++ lit "\end{tabular}") ++ b3.

Definition nested_text (pre : str) (placement : option str)
           (spec b1 b2 b3 post : str) : str :=
  pre ++ opening placement spec ++ nested_body b1 b2 b3
  ++ lit "\end{tabular}" ++ post.

(** The depth after a run of markers: the [begin]s less the [end]s (a
    marker is an [end] unless its group reads [begin]). *)
Definition is_begin (token : Match) : bool :=
  match m_groups token with
  | kind :: _ => eqb kind (lit "begin")
  | [] => false
  end.

Definition depth_after (tokens : list Match) : Z :=
  fold_left (fun depth token =>
               if is_begin token then (depth + 1)%Z else (depth - 1)%Z)
            tokens 0%Z.

(** A text with no [tabular] marker, no caption, label or centering
    command, no rule command and no bold command. *)
Definition bare (s : str) : bool :=
  marker_free s
  && negb (contains (lit "\caption") s)
  && negb (contains (lit "\label") s)
  && negb (contains (lit "\centering") s)
  && negb (contains (lit "\toprule") s)
  && negb (contains (lit "\midrule") s)
  && negb (contains (lit "\bottomrule") s)
  && negb (contains (lit "\textbf") s).

(** The report the specification announces for a bare text. *)
Definition announced_scenario_A (r : report) : Prop :=
  has_caption r = false /\ has_label r = false /\ has_centering r = false
  /\ uses_full_booktabs r = false
  /\ needs_tabular_scaffold r = true
  /\ length (placeholder_headers r) = 3
  /\ length (issues r) = 5
  /\ length (suggestions r) = 5.

(** The two invariants of a report. *)
Definition well_formed (r : report) : Prop :=
  length (issues r) = length (suggestions r)
  /\ (column_mismatch_rows r <> [] -> expected_columns r <> None).

(** The labels [Column 1] to [Column k]. *)
Definition column_labels (k : nat) : list str :=
  List.map (fun i => lit "Column " ++ of_nat i) (seq 1 k).

(** ** Notions for the further properties *)

(** The rows [_find_column_mismatches] reads off a body: the pieces between
    line breaks, stripped, the blank ones left out; and among them the
    data rows. *)
Definition rows_of (body : str) : list str :=
  List.map strip
    (filter (fun row => nonempty (strip row)) (split (lit "\\") body)).

Definition data_rows (body : str) : list str :=
  filter (fun row => negb (structural row)) (rows_of body).

(** The data rows with their numbers, from one. *)
Definition numbered_data_rows (body : str) : list (nat * str) :=
  combine (seq 1 (length (data_rows body))) (data_rows body).

(** A character the pattern of the alignment letters accepts. *)
Definition alignment_letter : char -> bool :=
  one_of_ignorecase (lit "lcrpmbXS").

(** A text in which every [tabular] marker is paired: stretches without
    markers, and between them [tabular]s whose inside is again such a
    text. *)
Inductive well_nested : str -> Prop :=
| nested_plain (a : str) :
    marker_free a = true -> well_nested a
| nested_tabular (a inner after : str) :
    marker_free a = true ->
    well_nested inner ->
    well_nested after ->
    well_nested (a ++ lit "\begin{tabular}" ++ inner
                   ++ lit "\end{tabular}" ++ after).

(** One issue, or none. *)
Definition issue_if (b : bool) (text : str) : list str :=
  if b then [text] else [].

(** ** The callers: [router.py], [llm_tools.py], [refiner.py], [main.py] *)

(** The language model is a service outside the program.  What the tools
    do with it is one call, [model.generate_content(prompt)], and one
    access, [response.text]: together they give either a text or an
    exception, of which the tools only use the message.  Within one run
    of the agent no prompt is sent twice, so the service is a function of
    the prompt here. *)
Inductive response :=
| Text (text : str)
| Failure (message : str).

(** The prompts are f-strings that are not raw: in them [\t] is a tab
    (code 9) and [\b] a backspace (code 8), which is what stands below in
    place of the first two characters of [\toprule], [\bottomrule] and
    [\begin]; the other backslashes stay.  Code 10 is the line feed. *)
Definition router_prompt (input_text : str) : str :=
  [10%N]
  ++ lit "You are a text classifier. Look at the user's input. Is it a) plain text data, "
  ++ [10%N]
  ++ lit "or b) LaTeX code? Respond with *only* the single word 'plain' or 'latex'."
  ++ [10%N; 10%N]
  ++ lit "Here is the input:"
  ++ [10%N]
  ++ input_text
  ++ [10%N].

Definition formatter_prompt (plain_text : str) : str :=
  [10%N]
  ++ lit "You are a data formatter. Convert the following plain text data into a "
  ++ [10%N]
  ++ lit "basic, unstyled LaTeX table. Use `"
  ++ [8%N]
  ++ lit "egin{table}`, `"
  ++ [8%N]
  ++ lit "egin{tabular}`, "
  ++ [10%N]
  ++ lit "and guess the column alignment. Do not add `\caption` or `\label` yet."
  ++ [10%N; 10%N]
  ++ lit "Respond with *only* the LaTeX code."
  ++ [10%N; 10%N]
  ++ lit "Here is the data:"
  ++ [10%N]
  ++ plain_text
  ++ [10%N].

(** The lines [run_refiner] makes of a report.  The report is the
    dictionary [audit_latex_table] returns, so every key is there and the
    defaults of [get] are never used; [x or []] on a list is the list. *)
Definition audit_summary_lines (audit_results : report) : list str :=
  let issues := issues audit_results in
  let column_mismatches := column_mismatch_rows audit_results in
  let audit_summary_lines := [lit "- No structural issues detected."] in
  let audit_summary_lines :=
    if nonempty issues
    then List.map (fun item => lit "- " ++ item) issues
    else audit_summary_lines in
  if nonempty column_mismatches
  then audit_summary_lines
       ++ [lit "- Column mismatches on rows: " ++ of_nat_list column_mismatches]
  else audit_summary_lines.

Definition suggestion_lines (audit_results : report) : list str :=
  let suggestions := suggestions audit_results in
  if nonempty suggestions
  then List.map (fun text => lit "- " ++ text) suggestions
  else [lit "- Follow the core table cleanup rules."].

Definition header_guidance (audit_results : report) : str :=
  let placeholder_headers := placeholder_headers audit_results in
  if nonempty placeholder_headers
  then join (lit ", ") placeholder_headers
  else lit "Use the existing column headings.".

(** [expected_cols_note] as the prompt prints it: the number, or the
    words that stand in for it. *)
Definition expected_cols_note (audit_results : report) : str :=
  match expected_columns audit_results with
  | Some (S _ as n) => of_nat n
  | _ => lit "the appropriate number of"
  end.

Definition refiner_prompt (latex_code : str) (audit_results : report) : str :=
  let audit_summary := join [10%N] (audit_summary_lines audit_results) in
  let suggestion_summary := join [10%N] (suggestion_lines audit_results) in
  [10%N]
  ++ lit "You are an expert LaTeX assistant. Take the following LaTeX table and "
  ++ [10%N]
  ++ lit "improve it based on these rules:"
  ++ [10%N; 10%N]
  ++ lit "1.  **Make it compact & professional:** Use the `booktabs` package. "
  ++ [10%N]
  ++ lit "    Add `"
  ++ [9%N]
  ++ lit "oprule`, `\midrule`, and `"
  ++ [8%N]
  ++ lit "ottomrule`."
  ++ [10%N]
  ++ lit "2.  **Clean up:** Remove all vertical lines (`|`) and `\hline`."
  ++ [10%N]
  ++ lit "3.  **Center it:** Ensure `\centering` is present."
  ++ [10%N]
  ++ lit "4.  **Placement:** Use `[htbp]` for the table environment."
  ++ [10%N]
  ++ lit "5.  **Caption (Audit = "
  ++ of_bool (has_caption audit_results)
  ++ lit "):** If this is False, add a "
  ++ [10%N]
  ++ lit "    placeholder: `\caption{Add your caption here}`"
  ++ [10%N]
  ++ lit "6.  **Label (Audit = "
  ++ of_bool (has_label audit_results)
  ++ lit "):** If this is False, add a "
  ++ [10%N]
  ++ lit "    placeholder *after* the caption: `\label{Add your label here}`"
  ++ [10%N]
  ++ lit "7.  **Honor the auditor report below before making other changes.**"
  ++ [10%N]
  ++ lit "8.  **Tabular scaffold needed (Audit = "
  ++ of_bool (needs_tabular_scaffold audit_results)
  ++ lit "):** If True, wrap the rows in a full `"
  ++ [8%N]
  ++ lit "egin{tabular}...\end{tabular}` with "
  ++ expected_cols_note audit_results
  ++ lit " columns."
  ++ [10%N]
  ++ lit "9.  **Header guidance:** If a header is missing, insert this placeholder header row (bold each column): "
  ++ header_guidance audit_results
  ++ lit "."
  ++ [10%N]
  ++ lit "10. **Do not change any of the user's actual data, text, or numbers.**"
  ++ [10%N; 10%N]
  ++ lit "Audit summary:"
  ++ [10%N]
  ++ audit_summary
  ++ [10%N; 10%N]
  ++ lit "Suggested fixes from the auditor:"
  ++ [10%N]
  ++ suggestion_summary
  ++ [10%N; 10%N]
  ++ lit "Respond with *only* the complete, final LaTeX code block."
  ++ [10%N; 10%N]
  ++ lit "Here is the table to refine:"
  ++ [10%N]
  ++ latex_code
  ++ [10%N].

Section Tools.

(** The service, and [str.lower], which is taken as it comes: nothing
    below depends on what it does to a text. *)
Variable generate_content : str -> response.
Variable lower : str -> str.

(** Each tool gives what it prints, one entry for each call of [print],
    and what it returns. *)
Definition run_router (input_text : str) : list str * str :=
  let out := [lit "[Router Tool]: Analyzing input type..."] in
  let prompt := router_prompt input_text in
  match generate_content prompt with
  | Text text =>
      let decision := lower (strip text) in
      let out := out ++ [lit "[Router Tool]: Decision is '" ++ decision ++ lit "'"] in
      if negb (existsb (eqb decision) [lit "plain"; lit "latex"])
      then (out ++ [lit "[Router Tool]: Non-standard response '" ++ decision
                    ++ lit "', defaulting to 'plain'."],
            lit "plain")
      else (out, decision)
  | Failure e =>
      (out ++ [lit "Error in router: " ++ e], lit "plain")
  end.

Definition run_formatter (plain_text : str) : list str * str :=
  let out := [lit "[Formatter Tool]: Converting plain text to LaTeX..."] in
  let prompt := formatter_prompt plain_text in
  match generate_content prompt with
  | Text text => (out, strip text)
  | Failure e => (out, lit "Error in formatter: " ++ e)
  end.

Definition run_refiner (latex_code : str) (audit_results : report)
  : list str * str :=
  let out := [lit "[Refiner Tool]: Refining LaTeX..."] in
  let prompt := refiner_prompt latex_code audit_results in
  match generate_content prompt with
  | Text text => (out, text)
  | Failure e => (out, lit "Error in refiner: " ++ e)
  end.

(** [run_agent]: code 129302 is the robot face of the source. *)
Definition run_agent (input_data : str) : result (list str * str) :=
  let out := [lit "AGENT STARTED"] in
  if negb (nonempty input_data) || negb (nonempty (strip input_data))
  then
    Ok (out
        ++ [lit "[Agent]: No content detected in the input. Skipping tool calls.";
            lit "  " ++ [129302%N] ++ lit " AGENT FINISHED  "],
        lit "Error: No input data provided.")
  else
    let '(out_router, input_type) := run_router input_data in
    let '(out_formatter, current_latex) :=
      if eqb input_type (lit "plain")
      then run_formatter input_data
      else ([], input_data) in
    audited <- audit_latex_table current_latex ;;
    let '(out_auditor, audit_results) := audited in
    let issues := issues audit_results in
    let out_issues :=
      if nonempty issues
      then lit "[Agent]: Auditor flagged these items before refinement:"
           :: List.map (fun issue => lit "  - " ++ issue) issues
      else [lit "[Agent]: Auditor did not flag any structural issues."] in
    let '(out_refiner, final_latex) := run_refiner current_latex audit_results in
    Ok (out ++ out_router ++ out_formatter ++ out_auditor ++ out_issues
        ++ out_refiner ++ [lit "AGENT STARTED"],
        final_latex).

End Tools.

(** A line the fallback passes over: it holds no cell separator, or it
    is a comment, that is, it begins with a percent sign once the white
    space around it is trimmed. *)
Definition passed_over (line : str) : bool :=
  negb (contains (lit "&") line) || startswith (lit "%") (strip line).

(** A text that holds no line boundary. *)
Definition single_line (line : str) : bool :=
  forallb (fun c => negb (islinebreak c)) line.

(* ================================================================== *)
(** * Properties *)
(* ================================================================== *)

(** ** The examples of the specification *)

Example count_lcr : _count_columns_from_spec (lit "lcr") = Some 3.
Proof. reflexivity. Qed.

Example count_with_bars : _count_columns_from_spec (lit "|l|c|r|") = Some 3.
Proof. reflexivity. Qed.

Example count_with_tweak : _count_columns_from_spec (lit "l@{,}c") = Some 2.
Proof. reflexivity. Qed.

Example count_bars_only : _count_columns_from_spec (lit "||") = None.
Proof. reflexivity. Qed.

Example count_long_s : _count_columns_from_spec [383%N] = Some 1.
Proof. reflexivity. Qed.

Example second_row_short :
  _find_column_mismatches
    {| column_spec := lit "lll"; body := lit "a & b & c \\ x & y \\" |} 3
  = [2].
Proof. reflexivity. Qed.

Example rule_row_skipped :
  _find_column_mismatches
    {| column_spec := lit "ll"; body := lit "\toprule \\ a & b \\ c \\" |} 2
  = [2].
Proof. reflexivity. Qed.

Example scenario_B :
  option_map snd
    (match audit_latex_table
             (lit "\begin{table}\centering\caption{T}\label{t}\begin{tabular}{lll}\toprule\\ \textbf{A} & \textbf{B} & \textbf{C} \\ \midrule\\ 1 & 2 & 3 \\ 4 & 5 & 6 \\ \bottomrule \end{tabular}\end{table}")
     with
     | Ok x => Some x
     | Raise _ => None
     end)
  = Some {| has_caption := true; has_label := true; has_centering := true;
            uses_full_booktabs := true; column_mismatch_rows := [];
            expected_columns := Some 3; needs_tabular_scaffold := false;
            placeholder_headers := []; issues := []; suggestions := [] |}.
Proof. vm_compute. reflexivity. Qed.

(** ** Strings *)

Section StrFacts.

Lemma eqb_eq (a b : str) : eqb a b = true <-> a = b.
Proof.
  revert b; induction a as [|x a IH]; intros [|y b]; simpl;
    try (split; [discriminate | discriminate]); try tauto.
  rewrite andb_true_iff, N.eqb_eq, IH.
  split; [intros [-> ->]; reflexivity | intros E; inversion E; auto].
Qed.

Lemma startswith_app (p s : str) : startswith p (p ++ s) = true.
Proof.
  induction p as [|x p IH]; simpl; [reflexivity|].
  now rewrite N.eqb_refl, IH.
Qed.

Lemma startswith_split (p s : str) :
  startswith p s = true -> s = p ++ skipn (length p) s.
Proof.
  revert s; induction p as [|x p IH]; intros s H; simpl in *; [reflexivity|].
  destruct s as [|y s]; [discriminate|].
  apply andb_true_iff in H as [E H]. apply N.eqb_eq in E. subst y.
  simpl. f_equal. now apply IH.
Qed.

Lemma startswith_cat (a b s : str) :
  startswith (a ++ b) s = startswith a s && startswith b (skipn (length a) s).
Proof.
  revert s; induction a as [|x a IH]; intros s; simpl; [reflexivity|].
  destruct s as [|y s]; [reflexivity|].
  rewrite IH. simpl. now rewrite andb_assoc.
Qed.

Lemma startswith_firstn (p s : str) :
  startswith p s = true -> firstn (length p) s = p.
Proof.
  intros H. rewrite (startswith_split p s H) at 1.
  rewrite firstn_app, firstn_all, Nat.sub_diag. simpl. apply app_nil_r.
Qed.

(** An occurrence that starts before a backslash and holds no backslash
    after its first character ends before that backslash. *)
Lemma startswith_before (p a r : str) :
  ~ In backslash p ->
  startswith p (a ++ backslash :: r) = true -> startswith p a = true.
Proof.
  revert a; induction p as [|x p IH]; intros a Hn H; simpl in *; [reflexivity|].
  destruct a as [|y a]; simpl in H.
  - apply andb_true_iff in H as [E _]. apply N.eqb_eq in E.
    exfalso. apply Hn. left. now rewrite E.
  - apply andb_true_iff in H as [E H]. rewrite E. simpl.
    apply IH; [tauto | exact H].
Qed.

Lemma contains_skipn (sub s : str) (i : nat) :
  contains sub s = false -> startswith sub (skipn i s) = false.
Proof.
  revert i; induction s as [|x s IH]; intros i H.
  - rewrite skipn_nil. simpl in H. now rewrite orb_false_r in H.
  - simpl in H. apply orb_false_iff in H as [H1 H2].
    destruct i as [|i]; [exact H1 | simpl; now apply IH].
Qed.

Lemma replace_from_0 (old new : str) (x : char) (s : str) :
  replace_from old new 0 (x :: s)
  = if startswith old (x :: s)
    then new ++ replace_from old new (length old - 1) s
    else x :: replace_from old new 0 s.
Proof. reflexivity. Qed.

Lemma replace_from_S (old new : str) (k : nat) (x : char) (s : str) :
  replace_from old new (S k) (x :: s) = replace_from old new k s.
Proof. reflexivity. Qed.

Lemma count_from_0 (sub : str) (x : char) (s : str) :
  count_from sub 0 (x :: s)
  = if startswith sub (x :: s)
    then S (count_from sub (length sub - 1) s)
    else count_from sub 0 s.
Proof. reflexivity. Qed.

Lemma count_from_S (sub : str) (k : nat) (x : char) (s : str) :
  count_from sub (S k) (x :: s) = count_from sub k s.
Proof. reflexivity. Qed.

Lemma count_amp_cons (x : char) (s : str) :
  count_from (lit "&") 0 (x :: s)
  = (if (38 =? x)%N then 1 else 0) + count_from (lit "&") 0 s.
Proof.
  rewrite count_from_0. change (lit "&") with [38%N].
  cbn [startswith]. rewrite andb_true_r.
  destruct (38 =? x)%N; reflexivity.
Qed.

(** Removing the escaped separators removes one separator for each: what
    is counted afterwards and the escaped ones add up to all of them. *)
Lemma count_unescaped_length (n : nat) (s : str) :
  length s <= n ->
  count (lit "&") (replace (lit "\&") [] s) + count (lit "\&") s
  = count (lit "&") s.
Proof.
  unfold count, replace. revert s.
  induction n as [|n IH]; intros s Hn.
  - destruct s; [reflexivity | simpl in Hn; lia].
  - destruct s as [|x s]; [reflexivity|].
    simpl in Hn.
    rewrite replace_from_0, (count_from_0 (lit "\&")), count_amp_cons.
    destruct (startswith (lit "\&") (x :: s)) eqn:E.
    + apply startswith_split in E. change (lit "\&") with [92%N; 38%N] in E.
      cbn [app length skipn] in E. injection E as -> E.
      destruct s as [|y s]; [discriminate|]. injection E as ->.
      change (length (lit "\&") - 1) with 1.
      rewrite replace_from_S, count_from_S, count_amp_cons.
      change (38 =? 92)%N with false. change (38 =? 38)%N with true.
      specialize (IH s ltac:(simpl in Hn; lia)). cbn [app]. lia.
    + rewrite count_amp_cons. specialize (IH s ltac:(lia)). lia.
Qed.

Lemma count_unescaped (s : str) :
  count (lit "&") (replace (lit "\&") [] s)
  = count (lit "&") s - count (lit "\&") s.
Proof.
  pose proof (@count_unescaped_length (length s) s (le_n _)). lia.
Qed.

Lemma count_contains_amp (s : str) :
  contains (lit "&") s = negb (count (lit "&") s =? 0).
Proof.
  unfold count. change (lit "&") with [38%N].
  induction s as [|x s IH]; [reflexivity|].
  cbn [contains count_from startswith length Nat.sub].
  destruct (38 =? x)%N; cbn [andb orb]; [reflexivity | exact IH].
Qed.

End StrFacts.


(** ** The matcher *)

Section ReFacts.

Context {A : Type}.
Implicit Types (k : nat -> str -> list str -> option A).

Lemma run_Cat r1 r2 n s g k :
  run (Cat r1 r2) n s g k = run r1 n s g (fun n1 s1 g1 => run r2 n1 s1 g1 k).
Proof. reflexivity. Qed.

Lemma run_Chr c n x s g k :
  run (Chr c) n (x :: s) g k = if (x =? c)%N then k (S n) s g else None.
Proof. reflexivity. Qed.

Lemma run_Alt r1 r2 n s g k :
  run (Alt r1 r2) n s g k
  = match run r1 n s g k with
    | Some a => Some a
    | None => run r2 n s g k
    end.
Proof. reflexivity. Qed.

Lemma run_Opt r n s g k :
  run (Opt r) n s g k
  = match run r n s g k with
    | Some a => Some a
    | None => k n s g
    end.
Proof. reflexivity. Qed.

Lemma run_Grp r n s g k :
  run (Grp r) n s g k
  = run r n s g (fun n1 s1 g1 => k n1 s1 (g1 ++ [firstn (n1 - n) s])).
Proof. reflexivity. Qed.

Lemma run_Lits (l : str) n s g k :
  run (Lits l) n s g k
  = if startswith l s then k (n + length l) (skipn (length l) s) g else None.
Proof.
  revert n s; induction l as [|c l IH]; intros n s.
  - simpl. now rewrite Nat.add_0_r.
  - destruct s as [|x s]; [reflexivity|].
    cbn [Lits run startswith length skipn].
    rewrite (N.eqb_sym x c). destruct (c =? x)%N; [|reflexivity].
    rewrite IH. cbn [andb]. now rewrite Nat.add_succ_comm.
Qed.

(** A greedy class followed by something that fails on every character of
    the class stops at the first character outside the class: giving
    characters back cannot help. *)
Lemma run_StarCls_stop (p : char -> bool) (a : str) (c : char) (rest : str)
      n g k :
  Forall (fun x => p x = true) a ->
  p c = false ->
  (forall n' x s', p x = true -> k n' (x :: s') g = None) ->
  run (StarCls p) n (a ++ c :: rest) g k = k (n + length a) (c :: rest) g.
Proof.
  intros Ha Hc Hk. cbn [run]. revert n.
  induction Ha as [|x a Hx Ha IH]; intros n.
  - cbn [app length]. rewrite Hc. now rewrite Nat.add_0_r.
  - cbn [app length]. rewrite Hx, IH, <- Nat.add_succ_comm.
    destruct (k (S n + length a) (c :: rest) g) eqn:E; [reflexivity|].
    now apply Hk.
Qed.

(** A greedy class that reaches the end of the subject, followed by
    something that needs a character outside the class, fails. *)
Lemma run_StarCls_end (p : char -> bool) (a : str) n g k :
  Forall (fun x => p x = true) a ->
  (forall n' x s', p x = true -> k n' (x :: s') g = None) ->
  (forall n', k n' [] g = None) ->
  run (StarCls p) n a g k = None.
Proof.
  intros Ha Hk Hnil. cbn [run]. revert n.
  induction Ha as [|x a Hx Ha IH]; intros n.
  - apply Hnil.
  - rewrite Hx, IH. now apply Hk.
Qed.

(** What a successful run went through: it handed over to [k] after
    consuming some characters and closing some groups. *)
Lemma run_Some (r : regex) n s g k (res : A) :
  run r n s g k = Some res ->
  exists m s' g',
    k m s' (g ++ g') = Some res
    /\ n <= m
    /\ (nullable r = false -> n < m)
    /\ (forall c, groups_closed r = Some c -> length g' = c).
Proof.
  revert n s g k res.
  induction r as [|c|p|r1 IH1 r2 IH2|r1 IH1 r2 IH2|r1 IH1|p|r1 IH1];
    intros n s g k res H; cbn [run] in H.
  - exists n, s, []. rewrite app_nil_r. repeat split; auto; try discriminate.
    intros c Hc. now inversion Hc.
  - destruct s as [|x s]; [discriminate|].
    destruct (x =? c)%N; [|discriminate].
    exists (S n), s, []. rewrite app_nil_r. repeat split; auto.
    intros c' Hc. now inversion Hc.
  - destruct s as [|x s]; [discriminate|].
    destruct (p x); [|discriminate].
    exists (S n), s, []. rewrite app_nil_r. repeat split; auto.
    intros c' Hc. now inversion Hc.
  - apply IH1 in H as (m1 & s1 & g1 & H & Hle1 & Hlt1 & Hg1).
    apply IH2 in H as (m2 & s2 & g2 & H & Hle2 & Hlt2 & Hg2).
    exists m2, s2, (g1 ++ g2). rewrite app_assoc. repeat split; auto; try lia.
    + cbn [nullable]. intros Hn. apply andb_false_iff in Hn as [Hn|Hn];
        [specialize (Hlt1 Hn) | specialize (Hlt2 Hn)]; lia.
    + cbn [groups_closed]. intros c Hc.
      destruct (groups_closed r1) as [c1|]; [|discriminate].
      destruct (groups_closed r2) as [c2|]; [|discriminate].
      inversion Hc. rewrite length_app, (Hg1 c1 eq_refl), (Hg2 c2 eq_refl).
      reflexivity.
  - cbn [nullable groups_closed].
    destruct (run r1 n s g k) eqn:E.
    + inversion H; subst. apply IH1 in E as (m1 & s1 & g1 & E & Hle & Hlt & Hg).
      exists m1, s1, g1. repeat split; auto.
      * intros Hn. apply orb_false_iff in Hn as [Hn _]. auto.
      * intros c Hc.
        destruct (groups_closed r1) as [c1|]; [|discriminate].
        destruct (groups_closed r2) as [c2|]; [|discriminate].
        destruct (c1 =? c2); inversion Hc. subst. auto.
    + apply IH2 in H as (m1 & s1 & g1 & H & Hle & Hlt & Hg).
      exists m1, s1, g1. repeat split; auto.
      * intros Hn. apply orb_false_iff in Hn as [_ Hn]. auto.
      * intros c Hc.
        destruct (groups_closed r1) as [c1|]; [|discriminate].
        destruct (groups_closed r2) as [c2|]; [|discriminate].
        destruct (Nat.eqb_spec c1 c2); inversion Hc. subst. auto.
  - cbn [nullable groups_closed].
    destruct (run r1 n s g k) eqn:E.
    + inversion H; subst. apply IH1 in E as (m1 & s1 & g1 & E & Hle & Hlt & Hg).
      exists m1, s1, g1. repeat split; auto; try discriminate.
      intros c Hc. destruct (groups_closed r1) as [[|c1]|]; inversion Hc.
      subst. auto.
    + exists n, s, []. rewrite app_nil_r. repeat split; auto; try discriminate.
      intros c Hc. destruct (groups_closed r1) as [[|c1]|]; inversion Hc.
      reflexivity.
  - cbn [nullable groups_closed].
    assert (exists m s', k m s' g = Some res /\ n <= m) as (m & s' & Hk & Hle).
    { revert n H. induction s as [|x s IHs]; intros n H.
      - exists n, []. auto.
      - destruct (p x).
        + destruct ((fix star (n : nat) (s : str) {struct s} : option A :=
             match s with
             | [] => k n s g
             | x :: s' =>
                 if p x
                 then match star (S n) s' with
                      | Some a => Some a
                      | None => k n s g
                      end
                 else k n s g
             end) (S n) s) eqn:E.
          * inversion H; subst. apply IHs in E as (m & s' & E & Hle).
            exists m, s'. split; [exact E | lia].
          * exists n, (x :: s). auto.
        + exists n, (x :: s). auto. }
    exists m, s', []. rewrite app_nil_r. repeat split; auto; try discriminate.
    intros c Hc. now inversion Hc.
  - apply IH1 in H as (m1 & s1 & g1 & H & Hle & Hlt & Hg).
    exists m1, s1, (g1 ++ [firstn (m1 - n) s]). rewrite app_assoc.
    repeat split; auto.
    cbn [groups_closed]. intros c Hc.
    destruct (groups_closed r1) as [c1|]; inversion Hc.
    rewrite length_app, (Hg c1 eq_refl). simpl. lia.
Qed.

End ReFacts.

Section MatchFacts.

Lemma skipn_exact {T} (a b : list T) : skipn (length a) (a ++ b) = b.
Proof. induction a; simpl; auto. Qed.

Lemma firstn_exact {T} (a b : list T) : firstn (length a) (a ++ b) = a.
Proof. induction a; simpl; f_equal; auto. Qed.

Lemma slice_middle (a m z : str) :
  slice (a ++ m ++ z) (length a) (length a + length m) = m.
Proof.
  unfold slice. rewrite skipn_exact.
  replace (length a + length m - length a) with (length m) by lia.
  apply firstn_exact.
Qed.

Lemma match_here_Some (r : regex) (s : str) (n : nat) (g : list str) :
  match_here r s = Some (n, g) ->
  (nullable r = false -> 0 < n)
  /\ (forall c, groups_closed r = Some c -> length g = c).
Proof.
  unfold match_here. intros H.
  apply run_Some in H as (m & s' & g' & H & _ & Hlt & Hg).
  cbn [app] in H. inversion H; subst. split; assumption.
Qed.

(** A marker is recognised exactly where one of the two texts begins. *)
Lemma match_here_token (s : str) :
  match_here TABULAR_TOKEN_RE s
  = if startswith (lit "\begin{tabular}") s then Some (15, [lit "begin"])
    else if startswith (lit "\end{tabular}") s then Some (13, [lit "end"])
    else None.
Proof.
  unfold match_here, TABULAR_TOKEN_RE.
  change (lit "\begin{tabular}")
    with (backslash :: lit "begin" ++ lit "{tabular}").
  change (lit "\end{tabular}") with (backslash :: lit "end" ++ lit "{tabular}").
  destruct s as [|x s]; [reflexivity|].
  rewrite run_Cat, run_Chr. cbn [startswith]. rewrite (N.eqb_sym x).
  destruct (backslash =? x)%N; [|reflexivity]. cbn [andb].
  rewrite !startswith_cat, run_Cat, run_Grp, run_Alt, !run_Lits.
  change (length (lit "begin")) with 5. change (length (lit "end")) with 3.
  change (length (lit "{tabular}")) with 9. cbn [app Nat.add Nat.sub].
  destruct (startswith (lit "begin") s) eqn:Eb.
  - pose proof (startswith_firstn _ _ Eb) as F.
    change (length (lit "begin")) with 5 in F. rewrite F. cbn [andb].
    destruct (startswith (lit "{tabular}") (skipn 5 s)); [reflexivity|].
    assert (En : startswith (lit "end") s = false).
    { destruct s as [|y s]; [discriminate|].
      change (lit "begin") with (98%N :: lit "egin") in Eb.
      change (lit "end") with (101%N :: lit "nd").
      cbn [startswith] in *. apply andb_true_iff in Eb as [Eb _].
      apply N.eqb_eq in Eb. now subst y. }
    rewrite En. reflexivity.
  - cbn [andb]. destruct (startswith (lit "end") s) eqn:En; [|reflexivity].
    pose proof (startswith_firstn _ _ En) as F.
    change (length (lit "end")) with 3 in F. rewrite F. cbn [andb].
    destruct (startswith (lit "{tabular}") (skipn 3 s)); reflexivity.
Qed.

(** The pattern of an opening needs the marker where it starts. *)
Lemma match_here_begin_marker (s : str) :
  startswith (lit "\begin{tabular}") s = false ->
  match_here TABULAR_BEGIN_RE s = None.
Proof.
  intros H. unfold match_here, TABULAR_BEGIN_RE.
  now rewrite run_Cat, run_Lits, H.
Qed.

Lemma none_of_Forall (c : char) (l : str) :
  forallb (none_of [c]) l = true -> Forall (fun x => none_of [c] x = true) l.
Proof. intros H. apply Forall_forall. now apply forallb_forall. Qed.

Lemma none_of_other (c x : char) : none_of [c] x = true -> (x =? c)%N = false.
Proof.
  unfold none_of. cbn [existsb]. rewrite orb_false_r.
  now destruct (x =? c)%N.
Qed.

(** The braces of an opening: the group takes the column specification. *)
Lemma run_braces (spec rest : str) (n : nat) (g : list str) :
  forallb (none_of (lit "}")) spec = true ->
  run (Cat (Chr 123) (Cat (Grp (StarCls (none_of (lit "}")))) (Chr 125)))
      n (lit "{" ++ spec ++ lit "}" ++ rest) g
      (fun n _ g => Some (n, g))
  = Some (n + 1 + length spec + 1, g ++ [spec]).
Proof.
  intros Hs. apply none_of_Forall in Hs.
  change (lit "{") with [123%N]. change (lit "}") with [125%N] in *.
  cbn [app]. rewrite run_Cat, run_Chr. change (123 =? 123)%N with true. cbv iota.
  rewrite run_Cat, run_Grp, run_StarCls_stop; auto.
  - rewrite run_Chr. change (125 =? 125)%N with true. cbv iota.
    replace (S n + length spec - S n) with (length spec) by lia.
    rewrite firstn_exact. f_equal. f_equal. lia.
  - intros n' x s' Hx. rewrite run_Chr. now rewrite (none_of_other _ _ Hx).
Qed.

(** The pattern of an opening matches an opening with plain arguments
    whole, and its group is the column specification. *)
Lemma match_here_opening (placement : option str) (spec rest : str) :
  plain_args placement spec = true ->
  match_here TABULAR_BEGIN_RE (opening placement spec ++ rest)
  = Some (length (opening placement spec), [spec]).
Proof.
  unfold plain_args. intros H. apply andb_true_iff in H as [Hp Hs].
  unfold match_here, TABULAR_BEGIN_RE, opening.
  rewrite <- app_assoc, run_Cat, run_Lits, startswith_app, skipn_exact.
  change (0 + length (lit "\begin{tabular}")) with 15.
  rewrite run_Cat, run_Opt.
  destruct placement as [p|].
  - apply none_of_Forall in Hp.
    change (lit "[") with [91%N]. change (lit "]") with [93%N] in *.
    rewrite <- !app_assoc. cbn [app].
    rewrite run_Cat, run_Chr. change (91 =? 91)%N with true. cbv iota.
    rewrite run_Cat, run_StarCls_stop; auto.
    + rewrite run_Chr. change (93 =? 93)%N with true. cbv iota.
      rewrite (run_braces spec rest _ [] Hs). f_equal. f_equal.
      repeat (progress (rewrite ?length_app; simpl)). lia.
    + intros n' x s' Hx. rewrite run_Chr. now rewrite (none_of_other _ _ Hx).
  - cbn [app]. rewrite <- !app_assoc.
    assert (E : forall k : nat -> str -> list str -> option (nat * list str),
               run (Cat (Chr 91) (Cat (StarCls (none_of (lit "]"))) (Chr 93)))
                   15 (lit "{" ++ spec ++ lit "}" ++ rest) [] k = None)
      by reflexivity.
    rewrite E, (run_braces spec rest _ [] Hs). f_equal. f_equal.
    repeat (progress (rewrite ?length_app; simpl)). lia.
Qed.

End MatchFacts.

(** ** Searching and iterating *)

Section ScanFacts.

Variable r : regex.

Lemma no_match_before_spec (text : str) (i : nat) :
  no_match_before r text i = true
  <-> forall j, j < i -> match_here r (skipn j text) = None.
Proof.
  unfold no_match_before. rewrite forallb_forall. split.
  - intros H j Hj. specialize (H j). rewrite in_seq in H.
    destruct (match_here r (skipn j text)); [|reflexivity].
    discriminate H. lia.
  - intros H j Hj. apply in_seq in Hj. rewrite H; [reflexivity | lia].
Qed.

Lemma search_from_first (pos : nat) (pre s : str) (ng : nat * list str) :
  (forall j, j < length pre -> match_here r (skipn j (pre ++ s)) = None) ->
  match_here r s = Some ng ->
  search_from r pos (pre ++ s) = Some (found (pos + length pre) ng).
Proof.
  revert pos; induction pre as [|x pre IH]; intros pos Hpre Hs.
  - cbn [app length]. rewrite Nat.add_0_r.
    destruct s; cbn [search_from]; now rewrite Hs.
  - cbn [app search_from length].
    rewrite (Hpre 0 ltac:(simpl; lia) : match_here r (x :: pre ++ s) = None).
    rewrite IH; [now rewrite Nat.add_succ_comm | | exact Hs].
    intros j Hj. apply (Hpre (S j)). simpl. lia.
Qed.

Lemma search_from_None (pos : nat) (s : str) :
  (forall j, match_here r (skipn j s) = None) ->
  search_from r pos s = None.
Proof.
  revert pos; induction s as [|x s IH]; intros pos H.
  - cbn [search_from]. now rewrite (H 0 : match_here r [] = None).
  - cbn [search_from].
    rewrite (H 0 : match_here r (x :: s) = None).
    apply IH. intros j. apply (H (S j)).
Qed.

Lemma search_from_Some (pos : nat) (s : str) (m : Match) :
  search_from r pos s = Some m ->
  exists j ng, match_here r (skipn j s) = Some ng /\ m = found (pos + j) ng.
Proof.
  revert pos; induction s as [|x s IH]; intros pos H; cbn [search_from] in H.
  - destruct (match_here r []) as [ng|] eqn:E; [|discriminate].
    exists 0, ng. rewrite Nat.add_0_r. split; [exact E | congruence].
  - destruct (match_here r (x :: s)) as [ng|] eqn:E.
    + exists 0, ng. rewrite Nat.add_0_r. split; [exact E | congruence].
    + apply IH in H as (j & ng & H & ->).
      exists (S j), ng. split; [exact H | now rewrite Nat.add_succ_comm].
Qed.

(** The characters of a match are passed over. *)
Lemma finditer_from_skip (pos : nat) (a rest : str) :
  finditer_from r (length a) pos (a ++ rest)
  = finditer_from r 0 (pos + length a) rest.
Proof.
  revert pos; induction a as [|x a IH]; intros pos.
  - cbn [app length]. now rewrite Nat.add_0_r.
  - cbn [app length finditer_from]. now rewrite IH, Nat.add_succ_comm.
Qed.

(** A match where the scan stands is reported, and the scan goes on behind
    it. *)
Lemma finditer_from_hit (pos : nat) (a rest : str) (g : list str) :
  a <> [] ->
  match_here r (a ++ rest) = Some (length a, g) ->
  finditer_from r 0 pos (a ++ rest)
  = found pos (length a, g) :: finditer_from r 0 (pos + length a) rest.
Proof.
  intros Ha H. destruct a as [|x a]; [contradiction|].
  cbn [app finditer_from] in *. rewrite H. cbn [fst length Nat.sub].
  now rewrite Nat.sub_0_r, finditer_from_skip, Nat.add_succ_comm.
Qed.

(** Where nothing matches the scan moves on. *)
Lemma finditer_from_gap (pos : nat) (a rest : str) :
  (forall j, j < length a -> match_here r (skipn j (a ++ rest)) = None) ->
  finditer_from r 0 pos (a ++ rest) = finditer_from r 0 (pos + length a) rest.
Proof.
  revert pos; induction a as [|x a IH]; intros pos H.
  - cbn [app length]. now rewrite Nat.add_0_r.
  - cbn [app finditer_from length].
    rewrite (H 0 ltac:(simpl; lia) : match_here r (x :: a ++ rest) = None).
    rewrite IH; [now rewrite Nat.add_succ_comm|].
    intros j Hj. apply (H (S j)). simpl. lia.
Qed.

(** Every match carries the groups of the pattern. *)
Lemma finditer_from_groups (c skip pos : nat) (s : str) :
  groups_closed r = Some c ->
  Forall (fun m => length (m_groups m) = c) (finditer_from r skip pos s).
Proof.
  intros Hc. revert skip pos; induction s as [|x s IH]; intros skip pos.
  - cbn [finditer_from]. destruct skip; [|constructor].
    destruct (match_here r []) as [[n g]|] eqn:E; constructor; [|constructor].
    apply match_here_Some in E as [_ E]. now apply E.
  - cbn [finditer_from]. destruct skip; [|apply IH].
    destruct (match_here r (x :: s)) as [[n g]|] eqn:E; [|apply IH].
    constructor; [|apply IH].
    apply match_here_Some in E as [_ E]. now apply E.
Qed.

Lemma search_groups (c : nat) (text : str) (m : Match) :
  groups_closed r = Some c ->
  search r text = Some m -> length (m_groups m) = c.
Proof.
  intros Hc H. apply search_from_Some in H as (j & [n g] & H & ->).
  apply match_here_Some in H as [_ H]. now apply H.
Qed.

End ScanFacts.

(** No pattern of this module matches the empty string. *)
Lemma match_here_nonempty (r : regex) (s : str) (n : nat) (g : list str) :
  In r [TABULAR_BEGIN_RE; TABULAR_TOKEN_RE; SPACING_TWEAK_RE; ALIGNMENT_TOKEN_RE] ->
  match_here r s = Some (n, g) -> 0 < n.
Proof.
  intros Hr H. apply match_here_Some in H as [H _]. apply H.
  cbn [In] in Hr. decompose [or] Hr; subst; try reflexivity. contradiction.
Qed.

(** ** Extraction *)

Section ExtractFacts.

Lemma token_groups : groups_closed TABULAR_TOKEN_RE = Some 1.
Proof. reflexivity. Qed.

Lemma begin_groups : groups_closed TABULAR_BEGIN_RE = Some 1.
Proof. reflexivity. Qed.

Lemma group_1 (m : Match) :
  length (m_groups m) = 1 -> exists t, m_groups m = [t] /\ group 1 m = Ok t.
Proof.
  unfold group. destruct (m_groups m) as [|t [|? ?]]; try discriminate.
  intros _. exists t. split; reflexivity.
Qed.

Lemma scan_tokens_total (depth : Z) (tokens : list Match) :
  Forall (fun m => length (m_groups m) = 1) tokens ->
  exists end_idx, scan_tokens depth tokens = Ok end_idx.
Proof.
  intros H. revert depth; induction H as [|token tokens Ht H IH]; intros depth.
  - exists None. reflexivity.
  - cbn [scan_tokens]. apply group_1 in Ht as (t & _ & ->). cbn [bind].
    destruct (eqb t (lit "begin")); [apply IH|].
    destruct (depth - 1 =? 0)%Z; [eexists; reflexivity | apply IH].
Qed.

(** The extraction raises nothing. *)
Lemma extract_total (latex_code : str) :
  exists tabular_block, _extract_outer_tabular latex_code = Ok tabular_block.
Proof.
  unfold _extract_outer_tabular.
  destruct (search TABULAR_BEGIN_RE latex_code) as [begin_match|] eqn:E;
    [|eexists; reflexivity].
  destruct (scan_tokens_total 0
              (@finditer_from_groups TABULAR_TOKEN_RE 1 0 (m_start begin_match)
                 (skipn (m_start begin_match) latex_code) token_groups))
    as [end_idx Hs].
  unfold finditer. rewrite Hs. cbn [bind].
  destruct end_idx as [end_idx|]; [|eexists; reflexivity].
  apply (@search_groups TABULAR_BEGIN_RE 1 _ _ begin_groups) in E.
  apply group_1 in E as (t & _ & ->). cbn [bind]. eexists; reflexivity.
Qed.

(** Without the opening marker there is nothing to extract. *)
Lemma extract_no_marker (latex_code : str) :
  contains (lit "\begin{tabular}") latex_code = false ->
  _extract_outer_tabular latex_code = Ok None.
Proof.
  intros H. unfold _extract_outer_tabular, search.
  rewrite search_from_None; [reflexivity|].
  intros j. apply match_here_begin_marker. now apply contains_skipn.
Qed.

Lemma startswith_gap (t a rest : str) (j : nat) :
  ~ In backslash t ->
  contains (backslash :: t) a = false ->
  j < length a ->
  startswith (backslash :: t) (skipn j (a ++ backslash :: rest)) = false.
Proof.
  intros Ht Hc Hj. rewrite skipn_app.
  replace (j - length a) with 0 by lia. cbn [skipn].
  pose proof (contains_skipn _ _ j Hc) as Hs.
  assert (Hl : length (skipn j a) <> 0) by (rewrite length_skipn; lia).
  destruct (skipn j a) as [|y a']; [contradiction|].
  cbn [app startswith] in *.
  destruct (backslash =? y)%N; [|reflexivity]. cbn [andb] in *.
  destruct (startswith t (a' ++ backslash :: rest)) eqn:E; [|reflexivity].
  apply startswith_before in E; [congruence | exact Ht].
Qed.

(** No marker starts inside a stretch that holds none and ends before a
    backslash. *)
Lemma token_gap (a rest : str) (j : nat) :
  marker_free a = true ->
  j < length a ->
  match_here TABULAR_TOKEN_RE (skipn j (a ++ backslash :: rest)) = None.
Proof.
  unfold marker_free. intros H Hj.
  apply andb_true_iff in H as [Hb He].
  apply negb_true_iff in Hb, He.
  rewrite match_here_token.
  change (lit "\begin{tabular}") with (backslash :: lit "begin{tabular}") in *.
  change (lit "\end{tabular}") with (backslash :: lit "end{tabular}") in *.
  rewrite !startswith_gap; auto.
  - vm_compute. intros H. decompose [or] H; discriminate || contradiction.
  - vm_compute. intros H. decompose [or] H; discriminate || contradiction.
Qed.

Lemma finditer_token_gap (pos : nat) (a rest : str) :
  marker_free a = true ->
  finditer_from TABULAR_TOKEN_RE 0 pos (a ++ backslash :: rest)
  = finditer_from TABULAR_TOKEN_RE 0 (pos + length a) (backslash :: rest).
Proof.
  intros H. apply finditer_from_gap. intros j Hj. now apply token_gap.
Qed.

Lemma finditer_token_begin (pos : nat) (rest : str) :
  finditer_from TABULAR_TOKEN_RE 0 pos (lit "\begin{tabular}" ++ rest)
  = {| m_start := pos; m_end := pos + 15; m_groups := [lit "begin"] |}
      :: finditer_from TABULAR_TOKEN_RE 0 (pos + 15) rest.
Proof.
  apply (@finditer_from_hit TABULAR_TOKEN_RE pos (lit "\begin{tabular}") rest
           [lit "begin"]); [discriminate|].
  now rewrite match_here_token, startswith_app.
Qed.

Lemma finditer_token_end (pos : nat) (rest : str) :
  finditer_from TABULAR_TOKEN_RE 0 pos (lit "\end{tabular}" ++ rest)
  = {| m_start := pos; m_end := pos + 13; m_groups := [lit "end"] |}
      :: finditer_from TABULAR_TOKEN_RE 0 (pos + 13) rest.
Proof.
  apply (@finditer_from_hit TABULAR_TOKEN_RE pos (lit "\end{tabular}") rest
           [lit "end"]); [discriminate|].
  rewrite match_here_token, startswith_app.
  now change (lit "\end{tabular}" ++ rest)
    with (backslash :: 101%N :: lit "nd{tabular}" ++ rest).
Qed.

(** A scan whose depth never comes back to zero finds no end. *)
Lemma scan_tokens_open (depth : Z) (tokens : list Match) :
  Forall (fun m => length (m_groups m) = 1) tokens ->
  (forall k, 0 < k <= length tokens ->
      fold_left (fun depth token =>
                   if is_begin token then (depth + 1)%Z else (depth - 1)%Z)
                (firstn k tokens) depth <> 0%Z) ->
  scan_tokens depth tokens = Ok None.
Proof.
  intros H. revert depth; induction H as [|token tokens Ht H IH]; intros depth Hd.
  - reflexivity.
  - cbn [scan_tokens].
    pose proof (Hd 1 ltac:(simpl; lia)) as H1. cbn [firstn fold_left] in H1.
    assert (Hrest : forall d, d = (if is_begin token then depth + 1 else depth - 1)%Z ->
               scan_tokens d tokens = Ok None).
    { intros d ->. apply IH. intros k Hk.
      apply (Hd (S k)). simpl. lia. }
    unfold is_begin in *. apply group_1 in Ht as (t & Hg & ->). rewrite Hg in *.
    cbn [bind]. destruct (eqb t (lit "begin")).
    + now apply Hrest.
    + destruct (Z.eqb_spec (depth - 1) 0); [contradiction | now apply Hrest].
Qed.

End ExtractFacts.

(** ** The outermost [tabular] *)

Section Nesting.

Lemma opening_marker (placement : option str) (spec : str) :
  opening placement spec
  = lit "\begin{tabular}" ++ opening_args placement spec.
Proof. reflexivity. Qed.

Lemma Match_eq (s1 s2 e1 e2 : nat) (g : list str) :
  s1 = s2 -> e1 = e2 ->
  {| m_start := s1; m_end := e1; m_groups := g |}
  = {| m_start := s2; m_end := e2; m_groups := g |}.
Proof. now intros -> ->. Qed.

Lemma finditer_token_gap_begin (pos : nat) (a rest : str) :
  marker_free a = true ->
  finditer_from TABULAR_TOKEN_RE 0 pos (a ++ lit "\begin{tabular}" ++ rest)
  = finditer_from TABULAR_TOKEN_RE 0 (pos + length a)
      (lit "\begin{tabular}" ++ rest).
Proof.
  intros H. exact (@finditer_token_gap pos a (lit "begin{tabular}" ++ rest) H).
Qed.

Lemma finditer_token_gap_end (pos : nat) (a rest : str) :
  marker_free a = true ->
  finditer_from TABULAR_TOKEN_RE 0 pos (a ++ lit "\end{tabular}" ++ rest)
  = finditer_from TABULAR_TOKEN_RE 0 (pos + length a)
      (lit "\end{tabular}" ++ rest).
Proof.
  intros H. exact (@finditer_token_gap pos a (lit "end{tabular}" ++ rest) H).
Qed.

(** The markers of a text with one nested [tabular], read from its
    opening: the opening, the nested pair, the closing, then whatever the
    rest of the text holds. *)
Lemma finditer_nested (pre : str) (placement : option str)
      (spec b1 b2 b3 post : str) :
  marker_free (opening_args placement spec ++ b1) = true ->
  marker_free b2 = true ->
  marker_free b3 = true ->
  exists later,
    finditer TABULAR_TOKEN_RE (nested_text pre placement spec b1 b2 b3 post)
      (length pre)
    = {| m_start := length pre; m_end := length pre + 15;
         m_groups := [lit "begin"] |}
      :: {| m_start := length pre + length (opening placement spec ++ b1);
            m_end := length pre + length (opening placement spec ++ b1) + 15;
            m_groups := [lit "begin"] |}
      :: {| m_start := length pre + length (opening placement spec ++ b1)
                       + 15 + length b2;
            m_end := length pre + length (opening placement spec ++ b1)
                     + 15 + length b2 + 13;
            m_groups := [lit "end"] |}
      :: {| m_start := length (pre ++ opening placement spec)
                       + length (nested_body b1 b2 b3);
            m_end := length (pre ++ opening placement spec)
                     + length (nested_body b1 b2 b3) + 13;
            m_groups := [lit "end"] |}
      :: later.
Proof.
  intros H1 H2 H3. unfold finditer, nested_text, nested_body.
  rewrite skipn_exact, opening_marker, <- !app_assoc.
  rewrite finditer_token_begin.
  rewrite (app_assoc (opening_args placement spec) b1).
  rewrite (@finditer_token_gap_begin _ _ _ H1), finditer_token_begin.
  rewrite (@finditer_token_gap_end _ _ _ H2), finditer_token_end.
  rewrite (@finditer_token_gap_end _ _ _ H3), finditer_token_end.
  eexists.
  repeat (progress (rewrite ?length_app; cbn [length])).
  change (length (lit "\begin{tabular}")) with 15.
  change (length (lit "\end{tabular}")) with 13.
  repeat (apply f_equal2; [apply Match_eq; lia|]). reflexivity.
Qed.

Lemma extract_nested (pre : str) (placement : option str)
      (spec b1 b2 b3 post : str) :
  no_match_before TABULAR_BEGIN_RE
    (nested_text pre placement spec b1 b2 b3 post) (length pre) = true ->
  plain_args placement spec = true ->
  marker_free (opening_args placement spec ++ b1) = true ->
  marker_free b2 = true ->
  marker_free b3 = true ->
  _extract_outer_tabular (nested_text pre placement spec b1 b2 b3 post)
  = Ok (Some {| column_spec := spec; body := nested_body b1 b2 b3 |}).
Proof.
  intros Hfirst Hargs H1 H2 H3.
  destruct (finditer_nested pre placement spec b1 b2 b3 post H1 H2 H3)
    as [later Htokens].
  rewrite no_match_before_spec in Hfirst.
  unfold _extract_outer_tabular, search.
  unfold nested_text at 1.
  rewrite (@search_from_first TABULAR_BEGIN_RE 0 pre _
             (length (opening placement spec), [spec]));
    [ | exact Hfirst | now apply match_here_opening ].
  cbn [found m_start m_end fst snd Nat.add].
  rewrite Htokens.
  cbn [scan_tokens group m_groups Nat.sub nth_error bind m_start].
  change (eqb (lit "begin") (lit "begin")) with true.
  change (eqb (lit "end") (lit "begin")) with false.
  cbv iota. cbn [bind Z.add Z.sub Z.eqb Z.opp Z.pos_sub Pos.add Pos.succ
                 Pos.pred_double Z.double Z.succ_double Z.pred_double].
  unfold nested_text. rewrite <- length_app, (app_assoc pre).
  cbn [bind group found snd fst m_groups nth_error Nat.sub m_start m_end].
  now rewrite slice_middle.
Qed.

Lemma extract_open (text : str) :
  (forall begin_match,
      search TABULAR_BEGIN_RE text = Some begin_match ->
      forall k,
        0 < k <= length (finditer TABULAR_TOKEN_RE text (m_start begin_match)) ->
        depth_after
          (firstn k (finditer TABULAR_TOKEN_RE text (m_start begin_match)))
        <> 0%Z) ->
  _extract_outer_tabular text = Ok None.
Proof.
  intros H. unfold _extract_outer_tabular.
  destruct (search TABULAR_BEGIN_RE text) as [begin_match|]; [|reflexivity].
  rewrite scan_tokens_open; [reflexivity | | exact (H begin_match eq_refl)].
  apply (@finditer_from_groups TABULAR_TOKEN_RE 1). exact token_groups.
Qed.

End Nesting.

(** ** The audit *)

Section Audit.

Lemma count_in_line_cells (line : option str) (n : nat) :
  _count_columns_in_line line = Some n ->
  exists l, line = Some l /\ n = cells l /\ 2 <= n.
Proof.
  unfold _count_columns_in_line, cells.
  destruct line as [[|x l]|]; try discriminate.
  rewrite count_contains_amp, negb_involutive, count_unescaped.
  destruct (Nat.eqb_spec (count (lit "&") (x :: l) - count (lit "\&") (x :: l)) 0);
    [discriminate|].
  intros E. inversion E. exists (x :: l). repeat split. lia.
Qed.

Lemma count_in_line_None (l : str) :
  _count_columns_in_line (Some l) = None
  <-> count (lit "&") l - count (lit "\&") l = 0.
Proof.
  unfold _count_columns_in_line. destruct l as [|x l]; [split; reflexivity|].
  rewrite count_contains_amp, negb_involutive, count_unescaped.
  destruct (Nat.eqb_spec (count (lit "&") (x :: l) - count (lit "\&") (x :: l)) 0);
    split; auto; try discriminate; intros; contradiction.
Qed.

Lemma or_None_truthy (n : nat) : truthy (or_None n) = negb (n =? 0).
Proof. now destruct n. Qed.

(** The report, field by field, in terms of what the extraction returns. *)
Lemma audit_report (latex_code : str) :
  exists tabular_block,
    _extract_outer_tabular latex_code = Ok tabular_block
    /\ exists out r,
      audit_latex_table latex_code = Ok (out, r)
      /\ has_caption r = contains (lit "\caption") latex_code
      /\ has_label r = contains (lit "\label") latex_code
      /\ has_centering r = contains (lit "\centering") latex_code
      /\ uses_full_booktabs r
         = contains (lit "\toprule") latex_code
           && contains (lit "\midrule") latex_code
           && contains (lit "\bottomrule") latex_code
      /\ needs_tabular_scaffold r
         = match tabular_block with Some _ => false | None => true end
      /\ column_mismatch_rows r
         = match tabular_block with
           | Some tb =>
               match _count_columns_from_spec (column_spec tb) with
               | Some (S n) => _find_column_mismatches tb (S n)
               | _ => []
               end
           | None => []
           end
      /\ expected_columns r
         = match tabular_block with
           | Some tb =>
               match _count_columns_from_spec (column_spec tb) with
               | Some (S n) => Some (S n)
               | e => match fallback_count latex_code with
                      | Some n => Some n
                      | None => e
                      end
               end
           | None => fallback_count latex_code
           end
      /\ placeholder_headers r
         = (if contains (lit "\textbf") latex_code
            then []
            else List.map (fun i => lit "Column " ++ of_nat (i + 1))
                   (seq 0 (Nat.max 1
                      (or_default
                         (or_else (expected_columns r) (fallback_count latex_code))
                         3))))
      /\ length (issues r) = length (suggestions r)
      /\ length (issues r)
         = Nat.b2n (negb (has_caption r)) + Nat.b2n (negb (has_label r))
           + Nat.b2n (negb (has_centering r))
           + Nat.b2n (negb (uses_full_booktabs r))
           + (if needs_tabular_scaffold r then 1
              else Nat.b2n (nonempty (column_mismatch_rows r)))
           + Nat.b2n (negb (contains (lit "\textbf") latex_code)).
Proof.
  destruct (extract_total latex_code) as [tabular_block Hx].
  exists tabular_block. split; [exact Hx|].
  unfold audit_latex_table, fallback_count. rewrite Hx. cbn [bind].
  repeat match goal with
         | |- context [lit ?t] =>
             let x := fresh "text" in set (x := lit t) in *; clearbody x
         end.
  repeat match goal with
         | |- context [contains ?t latex_code] =>
             let b := fresh "b" in
             set (b := contains t latex_code) in *; clearbody b
         end.
  set (fallback := _count_columns_in_line (first_line_with_amp latex_code)).
  clearbody fallback. clear Hx.
  match goal with
  | |- context [?x && ?y && ?z] =>
      let b := fresh "b" in set (b := x && y && z) in *; clearbody b
  end.
  repeat match goal with b : bool |- _ => clear b end.
  repeat match goal with b : bool |- _ => destruct b end;
    cbn [negb andb];
    (destruct tabular_block as [tb|];
     [ destruct (_count_columns_from_spec (column_spec tb)) as [[|n]|];
       [ | destruct (_find_column_mismatches tb (S n)) | ] | ]);
    cbn [nonempty truthy];
    destruct fallback as [[|m]|];
    do 2 eexists; (split; [reflexivity|]); repeat split.
Qed.

Lemma bare_spec (s : str) :
  bare s = true ->
  contains (lit "\begin{tabular}") s = false
  /\ contains (lit "\caption") s = false
  /\ contains (lit "\label") s = false
  /\ contains (lit "\centering") s = false
  /\ contains (lit "\toprule") s = false
  /\ contains (lit "\textbf") s = false.
Proof.
  unfold bare, marker_free. rewrite !andb_true_iff, !negb_true_iff. tauto.
Qed.

Lemma labels_shift (k : nat) :
  List.map (fun i => lit "Column " ++ of_nat (i + 1)) (seq 0 k)
  = column_labels k.
Proof.
  unfold column_labels. rewrite <- seq_shift, map_map.
  apply map_ext. intros i. now rewrite Nat.add_1_r.
Qed.

End Audit.

(** ** The statements of the specification *)

(** C1, amended.  For a text with no [tabular] marker, no caption, label,
    centering, rule or bold command, the report has its four presence
    flags false and the scaffold flag true, and it lists six issues and six
    suggestions: four for the presence checks, one for the missing
    [tabular], one for the missing header.  The placeholder headers are
    three when the fallback reads no column count off the text, and as
    many as that count otherwise. *)
Theorem scenario_A (s : str) :
  bare s = true ->
  exists out r,
    audit_latex_table s = Ok (out, r)
    /\ has_caption r = false /\ has_label r = false /\ has_centering r = false
    /\ uses_full_booktabs r = false
    /\ needs_tabular_scaffold r = true
    /\ length (placeholder_headers r)
       = match fallback_count s with Some n => n | None => 3 end
    /\ length (issues r) = 6
    /\ length (suggestions r) = 6.
Proof.
  intros H. apply bare_spec in H as (Hb & Hc & Hl & Hce & Ht & Hbold).
  destruct (audit_report s)
    as (tb & Hx & out & r & Ha & F1 & F2 & F3 & F4 & F5 & F6 & F7 & F8 & F9 & F10).
  rewrite (extract_no_marker s Hb) in Hx. inversion Hx; subst tb.
  exists out, r. split; [exact Ha|].
  rewrite Hc in F1. rewrite Hl in F2. rewrite Hce in F3.
  rewrite Ht in F4. cbn [andb] in F4. rewrite Hbold in F8, F10.
  rewrite <- F9, F10, F1, F2, F3, F4, F5, F8, F7.
  repeat split; auto.
  rewrite length_map, length_seq.
  destruct (fallback_count s) as [n|] eqn:E; [|reflexivity].
  apply count_in_line_cells in E as (l & _ & _ & Hn).
  unfold or_else. cbn [truthy].
  destruct n as [|n]; [lia|]. cbn [or_default]. lia.
Qed.

Lemma scenario_A_witness :
  bare (lit "Name, Age") = true
  /\ exists out r,
      audit_latex_table (lit "Name, Age") = Ok (out, r)
      /\ has_caption r = false /\ has_label r = false
      /\ has_centering r = false
      /\ uses_full_booktabs r = false
      /\ needs_tabular_scaffold r = true
      /\ length (placeholder_headers r)
         = match fallback_count (lit "Name, Age") with
           | Some n => n
           | None => 3
           end
      /\ length (issues r) = 6
      /\ length (suggestions r) = 6.
Proof.
  split; [reflexivity|].
  apply (scenario_A (lit "Name, Age")). reflexivity.
Defined.

(** C1 as the specification states it fails on the text [a & b]: it is
    bare, yet its report lists six issues and six suggestions, not five,
    and two placeholder headers, not three. *)
Lemma scenario_A_counterexample :
  bare (lit "a & b") = true
  /\ exists out r,
      audit_latex_table (lit "a & b") = Ok (out, r)
      /\ length (issues r) = 6
      /\ length (suggestions r) = 6
      /\ length (placeholder_headers r) = 2
      /\ ~ announced_scenario_A r.
Proof.
  split; [reflexivity|].
  do 2 eexists. split; [vm_compute; reflexivity|].
  repeat split; try reflexivity.
  unfold announced_scenario_A. cbn. intros H.
  decompose [and] H. discriminate.
Qed.

(** C2.  The audit raises nothing: for every text it returns a report, and
    the report is well formed (as many suggestions as issues, mismatched
    rows only under an expected column count).  For the empty text every
    presence flag is false and no row is mismatched. *)
Theorem audit_total :
  (forall s : str,
      exists out r, audit_latex_table s = Ok (out, r) /\ well_formed r)
  /\ (exists out r,
         audit_latex_table [] = Ok (out, r)
         /\ has_caption r = false /\ has_label r = false
         /\ has_centering r = false /\ uses_full_booktabs r = false
         /\ column_mismatch_rows r = []).
Proof.
  split.
  - intros s.
    destruct (audit_report s)
      as (tb & Hx & out & r & Ha & _ & _ & _ & _ & _ & F6 & F7 & _ & F9 & _).
    exists out, r. split; [exact Ha|]. split; [exact F9|].
    rewrite F6, F7. destruct tb as [tb|]; [|congruence].
    destruct (_count_columns_from_spec (column_spec tb)) as [[|n]|];
      congruence.
  - do 2 eexists. split; [vm_compute; reflexivity|]. repeat split.
Qed.

(** C3.  Every report has as many suggestions as issues. *)
Theorem issues_match_suggestions (s : str) :
  exists out r,
    audit_latex_table s = Ok (out, r)
    /\ length (issues r) = length (suggestions r).
Proof.
  destruct (audit_report s)
    as (tb & Hx & out & r & Ha & _ & _ & _ & _ & _ & _ & _ & _ & F9 & _).
  exists out, r. split; assumption.
Qed.

(** C7.  No row is reported mismatched when the scaffold flag is set, nor
    when no column count is expected; rows are reported only under an
    expected column count. *)
Theorem mismatches_need_a_table (s : str) :
  exists out r,
    audit_latex_table s = Ok (out, r)
    /\ (needs_tabular_scaffold r = true -> column_mismatch_rows r = [])
    /\ (expected_columns r = None -> column_mismatch_rows r = [])
    /\ (column_mismatch_rows r <> [] -> expected_columns r <> None).
Proof.
  destruct (audit_report s)
    as (tb & Hx & out & r & Ha & _ & _ & _ & _ & F5 & F6 & F7 & _ & _ & _).
  exists out, r. split; [exact Ha|].
  rewrite F5, F6, F7. destruct tb as [tb|].
  - destruct (_count_columns_from_spec (column_spec tb)) as [[|n]|];
      repeat split; congruence.
  - repeat split; congruence.
Qed.

(** The text [a & b] has no [tabular]: the scaffold flag is set, the
    fallback sets the expected column count to two, and no row is
    reported. *)
Lemma mismatches_need_a_table_witness :
  exists out r,
    audit_latex_table (lit "a & b") = Ok (out, r)
    /\ needs_tabular_scaffold r = true
    /\ expected_columns r = Some 2
    /\ column_mismatch_rows r = [].
Proof.
  destruct (mismatches_need_a_table (lit "a & b"))
    as (out & r & Ha & Hs & _ & _).
  exists out, r. split; [exact Ha|].
  assert (E : option_map (fun x => (needs_tabular_scaffold (snd x),
                                     expected_columns (snd x)))
                (match audit_latex_table (lit "a & b") with
                 | Ok x => Some x
                 | Raise _ => None
                 end) = Some (true, Some 2)) by (vm_compute; reflexivity).
  rewrite Ha in E. cbn in E. inversion E as [[E1 E2]].
  repeat split. apply Hs. exact E1.
Defined.

(** C5 as the specification states it fails on a text whose one line has
    only an escaped separator: the extraction resolves nothing, the line
    is the one the fallback looks at, separators less escaped ones plus
    one is one, and yet the report has no expected column count. *)
Lemma fallback_counterexample :
  extraction_count (lit "a \& b") = Ok None
  /\ first_line_with_amp (lit "a \& b") = Some (lit "a \& b")
  /\ count (lit "&") (lit "a \& b") - count (lit "\&") (lit "a \& b") + 1 = 1
  /\ exists out r,
      audit_latex_table (lit "a \& b") = Ok (out, r)
      /\ expected_columns r = None
      /\ expected_columns r
         <> Some (count (lit "&") (lit "a \& b")
                  - count (lit "\&") (lit "a \& b") + 1).
Proof.
  repeat split.
  do 2 eexists. split; [vm_compute; reflexivity|].
  split; [reflexivity | discriminate].
Qed.

(** ** Rows *)

Section Rows.

Lemma scan_rows_step (expected_cols : nat) (row : str) (rows : list str)
      (data_row_index : nat) (mismatched_rows : list nat) :
  scan_rows expected_cols (row :: rows) data_row_index mismatched_rows
  = if structural row
    then scan_rows expected_cols rows data_row_index mismatched_rows
    else scan_rows expected_cols rows (data_row_index + 1)
           (if cells row =? expected_cols
            then mismatched_rows
            else mismatched_rows ++ [data_row_index + 1]).
Proof.
  cbn [scan_rows]. unfold structural, cells. rewrite count_unescaped.
  destruct (startswith (lit "\") row || contains (lit "toprule") row
            || contains (lit "midrule") row || contains (lit "bottomrule") row);
    [reflexivity|].
  cbn [orb].
  destruct (contains (lit "\begin{tabular") row || contains (lit "\end{tabular") row);
    [reflexivity|].
  now destruct (count (lit "&") row - count (lit "\&") row + 1 =? expected_cols).
Qed.

Lemma StronglySorted_snoc (l : list nat) (x : nat) :
  StronglySorted lt l -> Forall (fun i => i < x) l ->
  StronglySorted lt (l ++ [x]).
Proof.
  induction 1 as [|y l Hl IH Hy]; intros Hx; cbn [app].
  - repeat constructor.
  - inversion Hx; subst. constructor; [now apply IH|].
    apply Forall_app. split; [exact Hy | now constructor].
Qed.

(** The rows reported so far increase strictly and lie between one and
    the number of data rows read; the loop keeps it so. *)
Lemma scan_rows_increasing (expected_cols : nat) (rows : list str)
      (data_row_index : nat) (mismatched_rows : list nat) :
  StronglySorted lt mismatched_rows ->
  Forall (fun i => 1 <= i <= data_row_index) mismatched_rows ->
  StronglySorted lt
    (scan_rows expected_cols rows data_row_index mismatched_rows)
  /\ Forall (fun i => 1 <= i)
       (scan_rows expected_cols rows data_row_index mismatched_rows).
Proof.
  revert data_row_index mismatched_rows.
  induction rows as [|row rows IH]; intros idx acc Hs Hb.
  - cbn [scan_rows]. split; [exact Hs|].
    eapply Forall_impl; [|exact Hb]. cbn. intros; lia.
  - rewrite scan_rows_step. destruct (structural row); [now apply IH|].
    destruct (cells row =? expected_cols).
    + apply IH; [exact Hs|]. eapply Forall_impl; [|exact Hb]. cbn. intros; lia.
    + apply IH.
      * apply StronglySorted_snoc; [exact Hs|].
        eapply Forall_impl; [|exact Hb]. cbn. intros; lia.
      * apply Forall_app. split.
        -- eapply Forall_impl; [|exact Hb]. cbn. intros; lia.
        -- constructor; [lia | constructor].
Qed.

End Rows.

(** C8.  An escaped separator is no cell boundary: a data row is compared
    with the expected count by its separators less the escaped ones, plus
    one.  The row [a \& b & c] is counted as two cells, and with two
    columns expected it is not reported. *)
Theorem escaped_separator_is_no_boundary :
  (forall expected_cols row rows data_row_index mismatched_rows,
      scan_rows expected_cols (row :: rows) data_row_index mismatched_rows
      = if structural row
        then scan_rows expected_cols rows data_row_index mismatched_rows
        else scan_rows expected_cols rows (data_row_index + 1)
               (if count (lit "&") row - count (lit "\&") row + 1
                   =? expected_cols
                then mismatched_rows
                else mismatched_rows ++ [data_row_index + 1]))
  /\ count (lit "&") (replace (lit "\&") [] (lit "a \& b & c")) + 1 = 2
  /\ forall spec,
      _find_column_mismatches
        {| column_spec := spec; body := lit "a \& b & c" |} 2 = [].
Proof.
  split; [exact scan_rows_step|]. split; reflexivity.
Qed.

(** C9.  The rows [_find_column_mismatches] reports are positive and
    strictly increasing. *)
Theorem mismatches_strictly_increasing
        (tabular_block : TabularBlock) (expected_cols : nat) :
  StronglySorted lt (_find_column_mismatches tabular_block expected_cols)
  /\ Forall (fun i => 1 <= i)
       (_find_column_mismatches tabular_block expected_cols).
Proof.
  unfold _find_column_mismatches.
  apply scan_rows_increasing; constructor.
Qed.

(** C4.  The letters inside a width argument are counted as columns: for
    the one-column specification [p{2cm}] the count is three, and a
    [tabular] that declares this one column is audited as having three. *)
Theorem width_argument_is_counted :
  _count_columns_from_spec (lit "p{2cm}") = Some 3
  /\ _count_columns_from_spec (lit "p{2cm") = Some 3
  /\ exists out r,
      audit_latex_table
        (lit "\begin{tabular}{p{2cm}} a \\ b \\ \end{tabular}")
      = Ok (out, r)
      /\ expected_columns r = Some 3.
Proof.
  split; [reflexivity|]. split; [reflexivity|].
  do 2 eexists. split; [vm_compute; reflexivity | reflexivity].
Qed.

(** C6.  Where a [tabular] with plain arguments is the first one of the
    text and holds exactly one nested [tabular] before its closing marker,
    the extraction returns its column specification and, as the body,
    everything from the end of its opening to the start of that closing
    marker, the nested [tabular] included.  Where the depth of the scan
    never comes back to zero, the extraction returns nothing. *)
Theorem extract_balanced_span :
  (forall (pre : str) (placement : option str) (spec b1 b2 b3 post : str),
      no_match_before TABULAR_BEGIN_RE
        (nested_text pre placement spec b1 b2 b3 post) (length pre) = true ->
      plain_args placement spec = true ->
      marker_free (opening_args placement spec ++ b1) = true ->
      marker_free b2 = true ->
      marker_free b3 = true ->
      _extract_outer_tabular (nested_text pre placement spec b1 b2 b3 post)
      = Ok (Some {| column_spec := spec; body := nested_body b1 b2 b3 |})
      /\ nested_body b1 b2 b3
         = slice (nested_text pre placement spec b1 b2 b3 post)
             (length (pre ++ opening placement spec))
             (length (pre ++ opening placement spec)
              + length (nested_body b1 b2 b3)))
  /\ (forall text : str,
         (forall begin_match,
             search TABULAR_BEGIN_RE text = Some begin_match ->
             forall k,
               0 < k <= length (finditer TABULAR_TOKEN_RE text
                                  (m_start begin_match)) ->
               depth_after
                 (firstn k (finditer TABULAR_TOKEN_RE text
                              (m_start begin_match)))
               <> 0%Z) ->
         _extract_outer_tabular text = Ok None).
Proof.
  split.
  - intros pre placement spec b1 b2 b3 post H0 H1 H2 H3 H4.
    split; [now apply extract_nested|].
    unfold nested_text. now rewrite (app_assoc pre), slice_middle.
  - exact extract_open.
Qed.

Lemma extract_balanced_span_witness :
  _extract_outer_tabular
    (lit "See \begin{tabular}[ht]{l|c} a & \begin{tabular}{c} x \\ y \end{tabular} \\ b & c \end{tabular} below")
  = Ok (Some {| column_spec := lit "l|c";
                body := lit " a & \begin{tabular}{c} x \\ y \end{tabular} \\ b & c " |})
  /\ _extract_outer_tabular (lit "\begin{tabular}{l} a & b") = Ok None.
Proof.
  split.
  - exact (proj1 (proj1 extract_balanced_span
                    (lit "See ") (Some (lit "ht")) (lit "l|c")
                    (lit " a & ") (lit "{c} x \\ y ") (lit " \\ b & c ")
                    (lit " below")
                    eq_refl eq_refl eq_refl eq_refl eq_refl)).
  - apply (proj2 extract_balanced_span).
    intros begin_match H. vm_compute in H. inversion H; subst begin_match.
    intros k Hk. vm_compute in Hk.
    assert (k = 1) as -> by lia. vm_compute. discriminate.
Defined.

(* ================================================================== *)
(** * Further properties of the code *)
(* ================================================================== *)

(** ** The rows reported *)

Section RowsReported.

Lemma scan_rows_closed (expected_cols : nat) (rows : list str)
      (data_row_index : nat) (mismatched_rows : list nat) :
  scan_rows expected_cols rows data_row_index mismatched_rows
  = mismatched_rows
    ++ List.map fst
         (filter (fun ir => negb (cells (snd ir) =? expected_cols))
            (combine
               (seq (data_row_index + 1)
                  (length (filter (fun row => negb (structural row)) rows)))
               (filter (fun row => negb (structural row)) rows))).
Proof.
  revert data_row_index mismatched_rows.
  induction rows as [|row rows IH]; intros idx acc.
  - cbn. now rewrite app_nil_r.
  - rewrite scan_rows_step. cbn [filter].
    destruct (structural row); cbn [negb]; [apply IH|].
    rewrite IH. cbn [length seq combine filter snd].
    replace (S (idx + 1)) with (idx + 1 + 1) by lia.
    destruct (cells row =? expected_cols); cbn [negb]; [reflexivity|].
    cbn [List.map fst]. now rewrite <- app_assoc.
Qed.

Lemma filter_combine_nil {A} (f : A -> bool) (from : nat) (l : list A) :
  filter (fun ir => f (snd ir)) (combine (seq from (length l)) l) = []
  <-> Forall (fun x => f x = false) l.
Proof.
  revert from; induction l as [|x l IH]; intros from.
  - cbn. split; constructor.
  - cbn [length seq combine filter snd]. destruct (f x) eqn:E.
    + split; [discriminate|]. intros H. inversion H. congruence.
    + rewrite IH. split; [now constructor | intros H; now inversion H].
Qed.

End RowsReported.

(** X1.  The rows reported are the numbers of the data rows whose cells,
    separators less escaped ones plus one, are not as many as expected:
    structural rows and blank pieces take no number. *)
Theorem mismatches_are_the_odd_data_rows
        (tabular_block : TabularBlock) (expected_cols : nat) :
  _find_column_mismatches tabular_block expected_cols
  = List.map fst
      (filter (fun ir => negb (cells (snd ir) =? expected_cols))
         (numbered_data_rows (body tabular_block))).
Proof.
  unfold _find_column_mismatches, numbered_data_rows, data_rows, rows_of.
  now rewrite scan_rows_closed.
Qed.

(** X2.  Nothing is reported exactly when every data row has the expected
    number of cells. *)
Theorem no_mismatch_iff_all_rows_fit
        (tabular_block : TabularBlock) (expected_cols : nat) :
  _find_column_mismatches tabular_block expected_cols = []
  <-> Forall (fun row => cells row = expected_cols)
        (data_rows (body tabular_block)).
Proof.
  unfold _find_column_mismatches, data_rows, rows_of.
  rewrite scan_rows_closed. cbn [app].
  set (rows := filter _ (List.map strip _)).
  split.
  - intros H.
    assert (E : filter (fun ir : nat * str => negb (cells (snd ir) =? expected_cols))
                  (combine (seq (0 + 1) (length rows)) rows) = []).
    { destruct (filter _ (combine _ rows)); [reflexivity | discriminate]. }
    apply (filter_combine_nil (fun row => negb (cells row =? expected_cols))) in E.
    eapply Forall_impl; [|exact E]. cbn. intros row Hr.
    apply negb_false_iff in Hr. now apply Nat.eqb_eq.
  - intros H.
    assert (E : filter (fun ir : nat * str => negb (cells (snd ir) =? expected_cols))
                  (combine (seq (0 + 1) (length rows)) rows) = []).
    { apply (filter_combine_nil (fun row => negb (cells row =? expected_cols))).
      eapply Forall_impl; [|exact H]. cbn. intros row Hr.
      apply negb_false_iff. now apply Nat.eqb_eq. }
    now rewrite E.
Qed.

(** X3.  A reported row number is at most the number of data rows of the
    body, and at most one row is reported per data row. *)
Theorem mismatches_within_data_rows
        (tabular_block : TabularBlock) (expected_cols : nat) :
  Forall (fun i => 1 <= i <= length (data_rows (body tabular_block)))
    (_find_column_mismatches tabular_block expected_cols)
  /\ length (_find_column_mismatches tabular_block expected_cols)
     <= length (data_rows (body tabular_block)).
Proof.
  unfold _find_column_mismatches, data_rows, rows_of.
  rewrite scan_rows_closed. cbn [app].
  set (rows := filter _ (List.map strip _)).
  split.
  - apply Forall_forall. intros i Hi.
    apply in_map_iff in Hi as ([j row] & <- & Hi).
    apply filter_In in Hi as [Hi _]. apply in_combine_l in Hi.
    apply in_seq in Hi. cbn [fst]. lia.
  - rewrite length_map.
    etransitivity; [apply filter_length_le|].
    rewrite length_combine, length_seq. lia.
Qed.

(** ** The column count of a specification *)

Section ColumnCount.

Lemma sub_from_0 (r : regex) (repl : str) (x : char) (s : str) :
  sub_from r repl 0 (x :: s)
  = match match_here r (x :: s) with
    | Some ng => repl ++ sub_from r repl (fst ng - 1) s
    | None => x :: sub_from r repl 0 s
    end.
Proof. reflexivity. Qed.

Lemma sub_from_skip (r : regex) (repl a rest : str) :
  sub_from r repl (length a) (a ++ rest) = sub_from r repl 0 rest.
Proof. induction a as [|x a IH]; [reflexivity | exact IH]. Qed.

Lemma sub_from_length (r : regex) (skip : nat) (s : str) :
  length (sub_from r [] skip s) <= length s.
Proof.
  revert skip; induction s as [|x s IH]; intros skip; [reflexivity|].
  destruct skip as [|skip].
  - rewrite sub_from_0. destruct (match_here r (x :: s)) as [ng|].
    + cbn [app length]. specialize (IH (fst ng - 1)). lia.
    + cbn [length]. specialize (IH 0). lia.
  - cbn [sub_from length]. specialize (IH skip). lia.
Qed.

(** A spacing tweak begins with an at sign. *)
Lemma match_here_tweak_head (x : char) (s : str) :
  (x =? 64)%N = false -> match_here SPACING_TWEAK_RE (x :: s) = None.
Proof.
  intros H. unfold match_here, SPACING_TWEAK_RE. now rewrite run_Cat, run_Chr, H.
Qed.

Lemma match_here_tweak (t rest : str) :
  forallb (none_of (lit "}")) t = true ->
  match_here SPACING_TWEAK_RE (lit "@{" ++ t ++ lit "}" ++ rest)
  = Some (length (lit "@{" ++ t ++ lit "}"), []).
Proof.
  intros Ht. apply none_of_Forall in Ht.
  unfold match_here, SPACING_TWEAK_RE.
  change (lit "@{") with [64%N; 123%N]. change (lit "}") with [125%N] in *.
  cbn [app]. rewrite run_Cat, run_Chr. change (64 =? 64)%N with true. cbv iota.
  rewrite run_Cat, run_Chr. change (123 =? 123)%N with true. cbv iota.
  rewrite run_Cat, run_StarCls_stop; auto.
  - rewrite run_Chr. change (125 =? 125)%N with true. cbv iota.
    f_equal. f_equal.
    repeat (progress (rewrite ?length_app; cbn [length])). lia.
  - intros n' x s' Hx. rewrite run_Chr. now rewrite (none_of_other _ _ Hx).
Qed.

(** Where no at sign stands, nothing is taken out. *)
Lemma sub_tweak_prefix (a rest : str) :
  existsb (fun c => (c =? 64)%N) a = false ->
  sub_from SPACING_TWEAK_RE [] 0 (a ++ rest)
  = a ++ sub_from SPACING_TWEAK_RE [] 0 rest.
Proof.
  induction a as [|x a IH]; intros H; [reflexivity|].
  cbn [existsb] in H. apply orb_false_iff in H as [Hx Ha].
  cbn [app]. rewrite sub_from_0, (@match_here_tweak_head x _ Hx).
  now rewrite IH.
Qed.

Lemma replace_bar (s : str) :
  replace (lit "|") [] s = filter (fun c => negb (c =? 124)%N) s.
Proof.
  unfold replace. change (lit "|") with [124%N].
  induction s as [|x s IH]; [reflexivity|].
  rewrite replace_from_0. cbn [startswith filter length Nat.sub app].
  rewrite andb_true_r, (N.eqb_sym x). destruct (124 =? x)%N; cbn [negb];
    now rewrite IH.
Qed.

Lemma match_here_Cls (p : char -> bool) (s : str) :
  match_here (Cls p) s
  = match s with
    | x :: _ => if p x then Some (1, []) else None
    | [] => None
    end.
Proof. destruct s; reflexivity. Qed.

(** Every character of the class is one match. *)
Lemma finditer_Cls_length (p : char -> bool) (pos : nat) (s : str) :
  length (finditer_from (Cls p) 0 pos s) = length (filter p s).
Proof.
  revert pos; induction s as [|x s IH]; intros pos; [reflexivity|].
  cbn [finditer_from filter]. rewrite match_here_Cls.
  destruct (p x); cbn [fst Nat.sub length]; now rewrite IH.
Qed.

Lemma filter_letters_bar (s : str) :
  filter alignment_letter (filter (fun c => negb (c =? 124)%N) s)
  = filter alignment_letter s.
Proof.
  induction s as [|x s IH]; [reflexivity|].
  cbn [filter]. destruct (N.eqb_spec x 124) as [->|Hx]; cbn [negb filter].
  - change (alignment_letter 124%N) with false. exact IH.
  - now rewrite IH.
Qed.

Lemma count_columns_letters (column_spec : str) :
  _count_columns_from_spec column_spec
  = or_None (length (filter alignment_letter
                       (sub SPACING_TWEAK_RE [] column_spec))).
Proof.
  unfold _count_columns_from_spec, findall, finditer, ALIGNMENT_TOKEN_RE.
  rewrite length_map. cbn [skipn].
  now rewrite finditer_Cls_length, replace_bar, filter_letters_bar.
Qed.

End ColumnCount.

(** X4.  For a column specification without an at sign, the count is the
    number of its characters that are one of l, c, r, p, m, b, x and s in
    either case (or the long s, U+017F), wherever they stand, braces
    included; and none when there is no such character. *)
Theorem count_is_the_number_of_letters (column_spec : str) :
  existsb (fun c => (c =? 64)%N) column_spec = false ->
  _count_columns_from_spec column_spec
  = or_None (length (filter alignment_letter column_spec)).
Proof.
  intros H. rewrite count_columns_letters. unfold sub.
  rewrite <- (app_nil_r column_spec) at 1.
  rewrite (@sub_tweak_prefix column_spec [] H). now rewrite app_nil_r.
Qed.

Lemma count_is_the_number_of_letters_witness :
  existsb (fun c => (c =? 64)%N) (lit "|l|p{3cm}|R|") = false
  /\ _count_columns_from_spec (lit "|l|p{3cm}|R|") = Some 5.
Proof.
  split; [reflexivity|].
  exact (@count_is_the_number_of_letters (lit "|l|p{3cm}|R|") eq_refl).
Defined.

(** X5.  A spacing tweak is not seen: a specification with a tweak whose
    payload has no closing brace, after a stretch without at sign, counts
    as the same specification without the tweak. *)
Theorem tweak_does_not_count (a t b : str) :
  existsb (fun c => (c =? 64)%N) a = false ->
  forallb (none_of (lit "}")) t = true ->
  _count_columns_from_spec (a ++ lit "@{" ++ t ++ lit "}" ++ b)
  = _count_columns_from_spec (a ++ b).
Proof.
  intros Ha Ht. rewrite !count_columns_letters. unfold sub.
  rewrite !(@sub_tweak_prefix a _ Ha). do 3 f_equal.
  pose proof (@match_here_tweak t b Ht) as Hm.
  change (lit "@{") with [64%N; 123%N] in *. cbn [app] in *.
  rewrite sub_from_0, Hm. cbn [fst app length Nat.sub]. f_equal.
  rewrite <- (sub_from_skip SPACING_TWEAK_RE [] (123%N :: t ++ lit "}") b).
  cbn [app length]. now rewrite <- app_assoc.
Qed.

Lemma tweak_does_not_count_witness :
  _count_columns_from_spec (lit "l" ++ lit "@{" ++ lit "\hspace{1cm" ++ lit "}" ++ lit "c")
  = _count_columns_from_spec (lit "l" ++ lit "c").
Proof.
  exact (@tweak_does_not_count (lit "l") (lit "\hspace{1cm") (lit "c")
           eq_refl eq_refl).
Defined.

(** X6.  The count is never zero and never more than the characters of
    the specification. *)
Theorem count_between_one_and_length (column_spec : str) (n : nat) :
  _count_columns_from_spec column_spec = Some n ->
  1 <= n <= length column_spec.
Proof.
  rewrite count_columns_letters. intros H.
  pose proof (filter_length_le alignment_letter
                (sub SPACING_TWEAK_RE [] column_spec)) as H1.
  pose proof (sub_from_length SPACING_TWEAK_RE 0 column_spec) as H2.
  unfold sub in *.
  destruct (length (filter alignment_letter
                      (sub_from SPACING_TWEAK_RE [] 0 column_spec)));
    [discriminate|].
  inversion H; subst. lia.
Qed.

Lemma count_between_one_and_length_witness :
  _count_columns_from_spec (lit "l@{,}c") = Some 2
  /\ 1 <= 2 <= length (lit "l@{,}c").
Proof.
  split; [reflexivity|].
  exact (@count_between_one_and_length (lit "l@{,}c") 2 eq_refl).
Defined.

(** ** What the extraction needs and what it returns *)

Section ExtractMore.

Lemma finditer_from_Forall (r : regex) (Q : list str -> Prop)
      (skip pos : nat) (s : str) :
  (forall j ng, match_here r (skipn j s) = Some ng -> Q (snd ng)) ->
  Forall (fun m => Q (m_groups m)) (finditer_from r skip pos s).
Proof.
  revert skip pos; induction s as [|x s IH]; intros skip pos H.
  - cbn [finditer_from]. destruct skip; [|constructor].
    destruct (match_here r []) as [ng|] eqn:E; constructor; [|constructor].
    exact (H 0 ng E).
  - assert (Hs : forall j ng, match_here r (skipn j s) = Some ng -> Q (snd ng))
      by (intros j ng; exact (H (S j) ng)).
    cbn [finditer_from]. destruct skip; [|now apply IH].
    destruct (match_here r (x :: s)) as [ng|] eqn:E; [|now apply IH].
    constructor; [exact (H 0 ng E) | now apply IH].
Qed.

(** Without a closing marker every marker found is an opening one. *)
Lemma tokens_all_begin (text : str) (pos : nat) :
  contains (lit "\end{tabular}") text = false ->
  Forall (fun m => m_groups m = [lit "begin"])
    (finditer TABULAR_TOKEN_RE text pos).
Proof.
  intros H. unfold finditer.
  apply (@finditer_from_Forall TABULAR_TOKEN_RE (fun g => g = [lit "begin"])).
  intros j ng. rewrite match_here_token, skipn_skipn.
  rewrite (contains_skipn _ _ (j + pos) H).
  destruct (startswith (lit "\begin{tabular}") (skipn (j + pos) text));
    [|discriminate].
  intros E. now inversion E.
Qed.

Lemma depth_all_begin (tokens : list Match) (depth : Z) :
  Forall (fun m => m_groups m = [lit "begin"]) tokens ->
  fold_left (fun depth token =>
               if is_begin token then (depth + 1)%Z else (depth - 1)%Z)
            tokens depth
  = (depth + Z.of_nat (length tokens))%Z.
Proof.
  intros H. revert depth; induction H as [|token tokens Ht H IH]; intros depth.
  - cbn. lia.
  - assert (Hb : is_begin token = true)
      by (unfold is_begin; rewrite Ht; reflexivity).
    cbn [fold_left length]. rewrite Hb, IH. lia.
Qed.

Lemma extract_no_end (text : str) :
  contains (lit "\end{tabular}") text = false ->
  _extract_outer_tabular text = Ok None.
Proof.
  intros H. apply extract_open. intros begin_match _ k Hk.
  unfold depth_after. rewrite depth_all_begin.
  - rewrite length_firstn. lia.
  - apply Forall_forall. intros m Hm.
    pose proof (tokens_all_begin text (m_start begin_match) H) as Hall.
    rewrite Forall_forall in Hall. apply Hall.
    rewrite <- (firstn_skipn k (finditer TABULAR_TOKEN_RE text (m_start begin_match))).
    apply in_or_app. now left.
Qed.

(** What a successful run of a repeated class went through: it took some
    characters of the class and handed over. *)
Lemma run_StarCls_Some {A} (p : char -> bool) (n : nat) (s : str)
      (g : list str) (k : nat -> str -> list str -> option A) (res : A) :
  run (StarCls p) n s g k = Some res ->
  exists m,
    forallb p (firstn m s) = true /\ k (n + m) (skipn m s) g = Some res.
Proof.
  cbn [run]. revert n; induction s as [|x s IH]; intros n H.
  - exists 0. rewrite Nat.add_0_r. split; [reflexivity | exact H].
  - destruct (p x) eqn:Hx.
    + match type of H with
      | match ?star with _ => _ end = _ => destruct star eqn:E
      end.
      * inversion H; subst. apply IH in E as (m & Hm & E).
        exists (S m). cbn [firstn forallb skipn]. rewrite Hx, Hm.
        split; [reflexivity|]. now rewrite <- Nat.add_succ_comm.
      * exists 0. rewrite Nat.add_0_r. split; [reflexivity | exact H].
    + exists 0. rewrite Nat.add_0_r. split; [reflexivity | exact H].
Qed.

Lemma run_braces_Some (n : nat) (s : str) (res : nat * list str) :
  run (Cat (Chr 123) (Cat (Grp (StarCls (none_of (lit "}")))) (Chr 125)))
      n s [] (fun n _ g => Some (n, g)) = Some res ->
  exists spec, snd res = [spec] /\ forallb (none_of (lit "}")) spec = true.
Proof.
  destruct s as [|x s]; [discriminate|].
  rewrite run_Cat, run_Chr. destruct (x =? 123)%N; [|discriminate].
  rewrite run_Cat, run_Grp. intros H.
  apply run_StarCls_Some in H as (m & Hm & H).
  destruct (skipn m s) as [|y s']; [discriminate|].
  rewrite run_Chr in H. destruct (y =? 125)%N; [|discriminate].
  replace (S n + m - S n) with m in H by lia.
  injection H as <-. cbn [snd app].
  exists (firstn m s). split; [reflexivity | exact Hm].
Qed.

(** The group of an opening holds no closing brace. *)
Lemma match_here_begin_spec (s : str) (res : nat * list str) :
  match_here TABULAR_BEGIN_RE s = Some res ->
  exists spec, snd res = [spec] /\ forallb (none_of (lit "}")) spec = true.
Proof.
  unfold match_here, TABULAR_BEGIN_RE. rewrite run_Cat, run_Lits.
  destruct (startswith (lit "\begin{tabular}") s); [|discriminate].
  rewrite run_Cat, run_Opt.
  match goal with
  | |- match ?inner with _ => _ end = _ -> _ => destruct inner eqn:E
  end.
  - intros H. inversion H; subst. clear H.
    apply run_Some in E as (m & s' & g' & E & _ & _ & Hg).
    specialize (Hg 0 eq_refl). destruct g'; [|discriminate].
    cbn [app] in E. now apply run_braces_Some in E.
  - apply run_braces_Some.
Qed.

End ExtractMore.

(** X7.  When the text lacks the opening marker or lacks the closing
    marker, nothing is extracted: an unclosed [tabular] is no
    [tabular]. *)
Theorem nothing_extracted_without_both_markers (latex_code : str) :
  contains (lit "\begin{tabular}") latex_code = false
  \/ contains (lit "\end{tabular}") latex_code = false ->
  _extract_outer_tabular latex_code = Ok None.
Proof.
  intros [H|H]; [now apply extract_no_marker | now apply extract_no_end].
Qed.

Lemma nothing_extracted_without_both_markers_witness :
  _extract_outer_tabular (lit "\begin{tabular}{ll} a & b \\ c & d") = Ok None.
Proof.
  apply nothing_extracted_without_both_markers. right. reflexivity.
Defined.

Section ExtractSound.

Lemma finditer_from_In (r : regex) (skip pos : nat) (s : str) (m : Match) :
  In m (finditer_from r skip pos s) ->
  exists j ng, match_here r (skipn j s) = Some ng /\ m = found (pos + j) ng.
Proof.
  revert skip pos; induction s as [|x s IH]; intros skip pos H.
  - cbn [finditer_from] in H. destruct skip; [|contradiction].
    destruct (match_here r []) as [ng|] eqn:E; [|contradiction].
    destruct H as [<-|[]]. exists 0, ng. now rewrite Nat.add_0_r.
  - assert (Hs : forall skip',
               In m (finditer_from r skip' (S pos) s) ->
               exists j ng,
                 match_here r (skipn j (x :: s)) = Some ng
                 /\ m = found (pos + j) ng).
    { intros skip' H'. apply IH in H' as (j & ng & H' & ->).
      exists (S j), ng. split; [exact H' | now rewrite Nat.add_succ_comm]. }
    cbn [finditer_from] in H. destruct skip; [|now apply Hs in H].
    destruct (match_here r (x :: s)) as [ng|] eqn:E; [|now apply Hs in H].
    destruct H as [<-|H]; [|now apply Hs in H].
    exists 0, ng. now rewrite Nat.add_0_r.
Qed.

(** The offset the scan stops at is the offset of one of the markers, and
    that marker is a closing one. *)
Lemma scan_tokens_Some (depth : Z) (tokens : list Match) (end_idx : nat) :
  scan_tokens depth tokens = Ok (Some end_idx) ->
  exists token,
    In token tokens /\ m_start token = end_idx /\ is_begin token = false.
Proof.
  revert depth; induction tokens as [|token tokens IH]; intros depth H;
    [discriminate|].
  cbn [scan_tokens] in H. unfold group in H. cbn [Nat.sub nth_error] in H.
  destruct (m_groups token) as [|kind rest] eqn:Eg; [discriminate|].
  cbn [bind] in H.
  assert (Hrest : forall d,
             scan_tokens d tokens = Ok (Some end_idx) ->
             exists token0,
               In token0 (token :: tokens) /\ m_start token0 = end_idx
               /\ is_begin token0 = false).
  { intros d Hd. apply IH in Hd as (t & Ht & Hd). exists t. split; [now right | exact Hd]. }
  destruct (eqb kind (lit "begin")) eqn:Ek; [now apply Hrest in H|].
  destruct (depth - 1 =? 0)%Z; [|now apply Hrest in H].
  inversion H; subst. exists token. split; [now left|]. split; [reflexivity|].
  unfold is_begin. now rewrite Eg.
Qed.

End ExtractSound.

(** X8.  Whatever is extracted, the column specification holds no closing
    brace, and the body is a stretch of the text that ends right where a
    closing marker begins. *)
Theorem extracted_block_shape (latex_code : str) (tabular_block : TabularBlock) :
  _extract_outer_tabular latex_code = Ok (Some tabular_block) ->
  forallb (none_of (lit "}")) (column_spec tabular_block) = true
  /\ exists i j,
      body tabular_block = slice latex_code i j
      /\ startswith (lit "\end{tabular}") (skipn j latex_code) = true.
Proof.
  unfold _extract_outer_tabular.
  destruct (search TABULAR_BEGIN_RE latex_code) as [begin_match|] eqn:Es;
    [|discriminate].
  destruct (scan_tokens 0 (finditer TABULAR_TOKEN_RE latex_code (m_start begin_match)))
    as [[end_idx|]|] eqn:Et; cbn [bind]; try discriminate.
  apply search_from_Some in Es as (j & ng & Hm & ->).
  apply match_here_begin_spec in Hm as (spec & Hg & Hspec).
  unfold group. cbn [found m_groups Nat.sub nth_error]. rewrite Hg. cbn [bind].
  intros H. inversion H; subst tabular_block. cbn [column_spec body].
  split; [exact Hspec|].
  exists (m_end (found (0 + j) ng)), end_idx. split; [reflexivity|].
  apply scan_tokens_Some in Et as (token & Hin & <- & Hb).
  unfold finditer in Hin.
  apply finditer_from_In in Hin as (i & ng' & Hm' & ->).
  rewrite match_here_token, skipn_skipn in Hm'.
  cbn [found m_start] in *.
  destruct (startswith (lit "\begin{tabular}") (skipn (i + (0 + j)) latex_code)).
  - inversion Hm'; subst ng'. discriminate Hb.
  - destruct (startswith (lit "\end{tabular}") (skipn (i + (0 + j)) latex_code)) eqn:E;
      [|discriminate].
    now rewrite Nat.add_comm.
Qed.

Lemma extracted_block_shape_witness :
  _extract_outer_tabular (lit "\begin{tabular}{p{2cm}l} a & b \end{tabular}")
  = Ok (Some {| column_spec := lit "p{2cm"; body := lit "l} a & b " |})
  /\ forallb (none_of (lit "}")) (lit "p{2cm") = true.
Proof.
  assert (E : _extract_outer_tabular
                (lit "\begin{tabular}{p{2cm}l} a & b \end{tabular}")
              = Ok (Some {| column_spec := lit "p{2cm"; body := lit "l} a & b " |}))
    by reflexivity.
  split; [exact E|].
  exact (proj1 (@extracted_block_shape _ _ E)).
Defined.

(** ** Nesting of any depth *)

Section DeepNesting.

Lemma contains_false_intro (sub s : str) :
  (forall j, startswith sub (skipn j s) = false) -> contains sub s = false.
Proof.
  induction s as [|x s IH]; intros H.
  - cbn [contains]. now rewrite (H 0 : startswith sub [] = false).
  - cbn [contains].
    rewrite (H 0 : startswith sub (x :: s) = false). cbn [orb].
    apply IH. intros j. exact (H (S j)).
Qed.

(** An occurrence that ends with [c] and holds no other [c], and starts
    before a [c] of the text, ends at that [c] at the latest. *)
Lemma startswith_upto (p u rest : str) (c : char) :
  ~ In c p ->
  startswith (p ++ [c]) (u ++ c :: rest) = true ->
  startswith (p ++ [c]) (u ++ [c]) = true.
Proof.
  revert u; induction p as [|x p IH]; intros u Hc H.
  - destruct u as [|y u]; cbn [app startswith] in *.
    + now rewrite N.eqb_refl.
    + apply andb_true_iff in H as [H _]. now rewrite H.
  - destruct u as [|y u]; cbn [app startswith] in *.
    + apply andb_true_iff in H as [H _]. apply N.eqb_eq in H.
      exfalso. apply Hc. now left.
    + apply andb_true_iff in H as [E H]. rewrite E. cbn [andb].
      apply IH; [|exact H]. intros Hin. apply Hc. now right.
Qed.

Lemma contains_after_brace (p a b : str) :
  ~ In 125%N p ->
  contains (p ++ [125%N]) (a ++ [125%N]) = false ->
  contains (p ++ [125%N]) b = false ->
  contains (p ++ [125%N]) ((a ++ [125%N]) ++ b) = false.
Proof.
  intros Hp Ha Hb. apply contains_false_intro. intros j.
  destruct (Nat.lt_ge_cases j (length a)) as [Hj|Hj].
  - rewrite <- app_assoc, skipn_app.
    replace (j - length a) with 0 by lia. cbn [skipn app].
    destruct (startswith (p ++ [125%N]) (skipn j a ++ 125%N :: b)) eqn:E;
      [|exact E].
    apply startswith_upto in E; [|exact Hp].
    pose proof (contains_skipn _ _ j Ha) as Hs.
    rewrite skipn_app in Hs. replace (j - length a) with 0 in Hs by lia.
    cbn [skipn] in Hs.
    pose proof (eq_trans (eq_sym E) Hs) as Habs. discriminate Habs.
  - destruct (Nat.eq_dec j (length a)) as [->|Hne].
    + rewrite <- app_assoc, skipn_exact. cbn [app].
      destruct p as [|x p]; cbn [app startswith].
      * pose proof (contains_skipn _ _ (length a) Ha) as Hs.
        rewrite skipn_exact in Hs. cbn [app startswith] in Hs.
        rewrite N.eqb_refl in Hs. discriminate.
      * destruct (N.eqb_spec x 125) as [->|Hx]; [|reflexivity].
        exfalso. apply Hp. now left.
    + rewrite skipn_app, skipn_all2 by (rewrite length_app; cbn; lia).
      cbn [app]. apply contains_skipn. exact Hb.
Qed.

Lemma marker_free_after_brace (a b : str) :
  marker_free (a ++ lit "}") = true ->
  marker_free b = true ->
  marker_free ((a ++ lit "}") ++ b) = true.
Proof.
  unfold marker_free. rewrite !andb_true_iff, !negb_true_iff.
  change (lit "}") with [125%N].
  change (lit "\begin{tabular}") with (lit "\begin{tabular" ++ [125%N]).
  change (lit "\end{tabular}") with (lit "\end{tabular" ++ [125%N]).
  intros [Ha1 Ha2] [Hb1 Hb2].
  split; apply contains_after_brace; auto;
    vm_compute; intros H; decompose [or] H; discriminate || contradiction.
Qed.

Lemma opening_args_brace (placement : option str) (spec : str) :
  opening_args placement spec
  = (match placement with
     | Some p => lit "[" ++ p ++ lit "]"
     | None => []
     end ++ lit "{" ++ spec) ++ lit "}".
Proof.
  unfold opening_args, opening. change 15 with (length (lit "\begin{tabular}")).
  rewrite skipn_exact. now rewrite <- !app_assoc.
Qed.

Lemma well_nested_after_args (placement : option str) (spec body : str) :
  marker_free (opening_args placement spec) = true ->
  well_nested body ->
  well_nested (opening_args placement spec ++ body).
Proof.
  intros Ha Hb. rewrite opening_args_brace in *.
  destruct Hb as [a Hfree | a inner after Hfree Hinner Hafter].
  - apply nested_plain. now apply marker_free_after_brace.
  - rewrite app_assoc. apply nested_tabular; auto.
    now apply marker_free_after_brace.
Qed.

(** The markers of a well nested stretch leave the depth of the scan as
    they found it, and never bring it to zero on the way. *)
Lemma finditer_well_nested (s : str) :
  well_nested s ->
  forall pos rest,
  exists tokens,
    finditer_from TABULAR_TOKEN_RE 0 pos (s ++ lit "\end{tabular}" ++ rest)
    = tokens
      ++ finditer_from TABULAR_TOKEN_RE 0 (pos + length s)
           (lit "\end{tabular}" ++ rest)
    /\ forall depth later,
        (1 <= depth)%Z ->
        scan_tokens depth (tokens ++ later) = scan_tokens depth later.
Proof.
  induction 1 as [a Ha | a inner after Ha Hinner IHinner Hafter IHafter];
    intros pos rest.
  - exists []. split; [now apply finditer_token_gap_end | reflexivity].
  - destruct (IHinner (pos + length a + 15) (after ++ lit "\end{tabular}" ++ rest))
      as (t1 & E1 & S1).
    destruct (IHafter (pos + length a + 15 + length inner + 13) rest)
      as (t2 & E2 & S2).
    exists ({| m_start := pos + length a; m_end := pos + length a + 15;
               m_groups := [lit "begin"] |}
            :: t1
            ++ {| m_start := pos + length a + 15 + length inner;
                  m_end := pos + length a + 15 + length inner + 13;
                  m_groups := [lit "end"] |}
            :: t2).
    split.
    + rewrite <- !app_assoc.
      rewrite (@finditer_token_gap_begin _ _ _ Ha), finditer_token_begin.
      rewrite E1, finditer_token_end, E2.
      cbn [app]. rewrite <- !app_assoc. cbn [app].
      do 4 f_equal.
      repeat (progress (rewrite ?length_app; cbn [length])).
      change (length (lit "\begin{tabular}")) with 15.
      change (length (lit "\end{tabular}")) with 13.
      f_equal. lia.
    + intros depth later Hd.
      cbn [app scan_tokens group m_groups Nat.sub nth_error bind].
      change (eqb (lit "begin") (lit "begin")) with true. cbv iota.
      rewrite <- app_assoc, S1 by lia.
      cbn [app scan_tokens group m_groups Nat.sub nth_error bind].
      change (eqb (lit "end") (lit "begin")) with false. cbv iota.
      destruct (Z.eqb_spec (depth + 1 - 1) 0); [lia|].
      replace (depth + 1 - 1)%Z with depth by lia.
      now apply S2.
Qed.

End DeepNesting.

Lemma extract_deep (pre : str) (placement : option str)
      (spec inside post : str) :
  no_match_before TABULAR_BEGIN_RE
    (pre ++ opening placement spec ++ inside ++ lit "\end{tabular}" ++ post)
    (length pre) = true ->
  plain_args placement spec = true ->
  marker_free (opening_args placement spec) = true ->
  well_nested inside ->
  _extract_outer_tabular
    (pre ++ opening placement spec ++ inside ++ lit "\end{tabular}" ++ post)
  = Ok (Some {| column_spec := spec; body := inside |}).
Proof.
  intros Hfirst Hargs Hfree Hnest.
  rewrite no_match_before_spec in Hfirst.
  destruct (@finditer_well_nested _ (well_nested_after_args _ _ Hfree Hnest)
              (length pre + 15) post) as (tokens & Et & Hs).
  set (text := pre ++ opening placement spec ++ inside
                 ++ lit "\end{tabular}" ++ post) in *.
  assert (Etok : exists later,
             finditer TABULAR_TOKEN_RE text (length pre)
             = {| m_start := length pre; m_end := length pre + 15;
                  m_groups := [lit "begin"] |}
               :: tokens
               ++ {| m_start := length (pre ++ opening placement spec)
                                + length inside;
                     m_end := length (pre ++ opening placement spec)
                              + length inside + 13;
                     m_groups := [lit "end"] |}
               :: later).
  { unfold finditer, text.
    rewrite skipn_exact, opening_marker, <- !app_assoc.
    rewrite finditer_token_begin.
    rewrite (app_assoc (opening_args placement spec) inside), Et.
    rewrite finditer_token_end. eexists. do 2 f_equal.
    apply f_equal2; [|reflexivity].
    apply Match_eq;
      repeat (progress (rewrite ?length_app; cbn [length]));
      change (length (lit "\begin{tabular}")) with 15; lia. }
  destruct Etok as [later Etok].
  unfold _extract_outer_tabular, search. unfold text at 1.
  rewrite (@search_from_first TABULAR_BEGIN_RE 0 pre _
             (length (opening placement spec), [spec]));
    [ | exact Hfirst | now apply match_here_opening ].
  cbn [found m_start m_end fst snd Nat.add].
  rewrite Etok.
  cbn [scan_tokens group m_groups Nat.sub nth_error bind m_start].
  change (eqb (lit "begin") (lit "begin")) with true. cbv iota.
  rewrite Hs by (cbn; lia).
  cbn [scan_tokens group m_groups Nat.sub nth_error bind m_start].
  change (eqb (lit "end") (lit "begin")) with false. cbv iota.
  change (0 + 1 - 1 =? 0)%Z with true. cbv iota. cbn [bind].
  unfold text. rewrite <- length_app, (app_assoc pre), slice_middle.
  reflexivity.
Qed.

(** X9.  A [tabular] with plain arguments that is the first one of the
    text, whose arguments hold no marker and whose inside is well nested
    to any depth, is extracted whole: the column specification, and as
    the body everything up to its own closing marker. *)
Theorem extract_well_nested (pre : str) (placement : option str)
        (spec inside post : str) :
  no_match_before TABULAR_BEGIN_RE
    (pre ++ opening placement spec ++ inside ++ lit "\end{tabular}" ++ post)
    (length pre) = true ->
  plain_args placement spec = true ->
  marker_free (opening_args placement spec) = true ->
  well_nested inside ->
  _extract_outer_tabular
    (pre ++ opening placement spec ++ inside ++ lit "\end{tabular}" ++ post)
  = Ok (Some {| column_spec := spec; body := inside |}).
Proof. exact (@extract_deep pre placement spec inside post). Qed.

Lemma extract_well_nested_witness :
  _extract_outer_tabular
    (lit "\begin{tabular}{l} a \begin{tabular}{c} b \begin{tabular}{r} c \end{tabular} \end{tabular} \\ d \end{tabular} e")
  = Ok (Some {| column_spec := lit "l";
                body := lit " a \begin{tabular}{c} b \begin{tabular}{r} c \end{tabular} \end{tabular} \\ d " |}).
Proof.
  apply (@extract_well_nested [] None (lit "l")
           (lit " a " ++ lit "\begin{tabular}"
              ++ (lit "{c} b " ++ lit "\begin{tabular}" ++ lit "{r} c "
                    ++ lit "\end{tabular}" ++ lit " ")
              ++ lit "\end{tabular}" ++ lit " \\ d ")
           (lit " e")); try reflexivity.
  apply nested_tabular; [reflexivity | | now apply nested_plain].
  apply nested_tabular; [reflexivity | |]; now apply nested_plain.
Defined.

(** ** More on the audit *)

Section AuditMore.

(** The issues of a report, check by check, in the order of the checks. *)
Lemma audit_issues_list (latex_code : str) :
  exists tabular_block,
    _extract_outer_tabular latex_code = Ok tabular_block
    /\ exists out r,
      audit_latex_table latex_code = Ok (out, r)
      /\ issues r
         = issue_if (negb (contains (lit "\caption") latex_code))
             (lit "Caption missing.")
           ++ issue_if (negb (contains (lit "\label") latex_code))
                (lit "Label missing.")
           ++ issue_if (negb (contains (lit "\centering") latex_code))
                (lit "Table is not centered.")
           ++ issue_if
                (negb (contains (lit "\toprule") latex_code
                       && contains (lit "\midrule") latex_code
                       && contains (lit "\bottomrule") latex_code))
                (lit "Booktabs rules are incomplete.")
           ++ match tabular_block with
              | Some _ =>
                  issue_if (nonempty (column_mismatch_rows r))
                    (lit "Column count mismatch on data rows: "
                     ++ of_nat_list (column_mismatch_rows r) ++ lit ".")
              | None => [lit "Tabular environment missing."]
              end
           ++ issue_if (negb (contains (lit "\textbf") latex_code))
                (lit "Header row missing or not emphasized.").
Proof.
  destruct (extract_total latex_code) as [tabular_block Hx].
  exists tabular_block. split; [exact Hx|].
  unfold audit_latex_table, issue_if. rewrite Hx. cbn [bind].
  repeat match goal with
         | |- context [lit ?t] =>
             let x := fresh "text" in set (x := lit t) in *; clearbody x
         end.
  repeat match goal with
         | |- context [contains ?t latex_code] =>
             let b := fresh "b" in
             set (b := contains t latex_code) in *; clearbody b
         end.
  set (fallback := _count_columns_in_line (first_line_with_amp latex_code)).
  clearbody fallback. clear Hx.
  match goal with
  | |- context [?x && ?y && ?z] =>
      let b := fresh "b" in set (b := x && y && z) in *; clearbody b
  end.
  repeat match goal with b : bool |- _ => clear b end.
  repeat match goal with b : bool |- _ => destruct b end;
    cbn [negb andb];
    (destruct tabular_block as [tb|];
     [ destruct (_count_columns_from_spec (column_spec tb)) as [[|n]|];
       [ | destruct (_find_column_mismatches tb (S n)) | ] | ]);
    cbn [nonempty truthy];
    destruct fallback as [[|m]|];
    do 2 eexists; (split; reflexivity).
Qed.

Lemma In_issue_if (b : bool) (text x : str) :
  In x (issue_if b text) <-> b = true /\ x = text.
Proof.
  destruct b; cbn; split; try tauto.
  - intros [<-|[]]. auto.
  - intros [_ ->]. now left.
  - intros [H _]. discriminate.
Qed.

End AuditMore.

Section AuditFacts.

Lemma count_columns_not_zero (column_spec : str) :
  _count_columns_from_spec column_spec <> Some 0.
Proof.
  rewrite count_columns_letters.
  now destruct (length (filter alignment_letter
                          (sub SPACING_TWEAK_RE [] column_spec))).
Qed.

(** The report of a text, with the facts of [audit_report] and the list of
    [audit_issues_list] about the same report. *)
Lemma audit_same_report (s : str) (out out' : list str) (r r' : report) :
  audit_latex_table s = Ok (out, r) ->
  audit_latex_table s = Ok (out', r') ->
  r' = r.
Proof. intros H H'. rewrite H in H'. now inversion H'. Qed.

(** Six checks, six different texts: a text is among the issues exactly
    when its check raised it. *)
Lemma issues_flags (t1 t2 t3 t4 t5 t6 : str) (b1 b2 b3 b4 b6 : bool)
      (mid l : list str) :
  l = issue_if b1 t1 ++ issue_if b2 t2 ++ issue_if b3 t3 ++ issue_if b4 t4
      ++ mid ++ issue_if b6 t6 ->
  NoDup [t1; t2; t3; t4; t5; t6] ->
  (forall x, In x mid -> x = t5 \/ ~ In x [t1; t2; t3; t4; t5; t6]) ->
  (In t1 l <-> b1 = true) /\ (In t2 l <-> b2 = true)
  /\ (In t3 l <-> b3 = true) /\ (In t4 l <-> b4 = true)
  /\ (In t5 l <-> In t5 mid) /\ (In t6 l <-> b6 = true).
Proof.
  intros -> Hd Hmid.
  assert (Hm : forall t, In t [t1; t2; t3; t4; t5; t6] -> t <> t5 -> ~ In t mid).
  { intros t Ht Hne Hin. destruct (Hmid t Hin); auto. }
  repeat match goal with
         | H : NoDup (_ :: _) |- _ => inversion H; subst; clear H
         end.
  cbn [In] in *.
  repeat rewrite in_app_iff. repeat rewrite In_issue_if.
  repeat split; intros H; try tauto;
    decompose [or and] H; clear H; subst; auto; try tauto;
    try (exfalso; eapply Hm; [| |eassumption]; cbn [In]; [tauto | intros ->; tauto]).
Qed.

Lemma expected_positive (s : str) (out : list str) (r : report) (n : nat) :
  audit_latex_table s = Ok (out, r) ->
  expected_columns r = Some n ->
  1 <= n /\ (needs_tabular_scaffold r = true -> 2 <= n).
Proof.
  intros Ha He.
  destruct (audit_report s)
    as (tb & Hx & out' & r' & Ha' & _ & _ & _ & _ & F5 & _ & F7 & _).
  rewrite (@audit_same_report s _ _ _ _ Ha Ha') in *. clear Ha'.
  rewrite F5. rewrite F7 in He. destruct tb as [tb|].
  - split; [|discriminate].
    pose proof (count_columns_not_zero (column_spec tb)) as Hz.
    destruct (_count_columns_from_spec (column_spec tb)) as [[|k]|];
      try congruence.
    + inversion He. lia.
    + destruct (fallback_count s) as [m|] eqn:Ef; [|discriminate].
      inversion He; subst.
      apply count_in_line_cells in Ef as (_ & _ & _ & Hm). lia.
  - apply count_in_line_cells in He as (_ & _ & _ & Hm). split; intros; lia.
Qed.

End AuditFacts.

(** X10.  The flags and the issues of a report agree: an issue about the
    caption, the label, the centering, the rules or the [tabular] is
    listed exactly when the matching flag says so, and the issue about the
    header exactly when the text has no bold command. *)
Theorem flags_agree_with_issues (s : str) :
  exists out r,
    audit_latex_table s = Ok (out, r)
    /\ (In (lit "Caption missing.") (issues r) <-> has_caption r = false)
    /\ (In (lit "Label missing.") (issues r) <-> has_label r = false)
    /\ (In (lit "Table is not centered.") (issues r)
        <-> has_centering r = false)
    /\ (In (lit "Booktabs rules are incomplete.") (issues r)
        <-> uses_full_booktabs r = false)
    /\ (In (lit "Tabular environment missing.") (issues r)
        <-> needs_tabular_scaffold r = true)
    /\ (In (lit "Header row missing or not emphasized.") (issues r)
        <-> contains (lit "\textbf") s = false).
Proof.
  destruct (audit_report s)
    as (tb & Hx & out & r & Ha & F1 & F2 & F3 & F4 & F5 & _).
  destruct (audit_issues_list s) as (tb' & Hx' & out' & r' & Ha' & Hi).
  rewrite (@audit_same_report s _ _ _ _ Ha Ha') in Hi.
  rewrite Hx in Hx'. inversion Hx'; subst tb'. clear Hx' Ha'.
  exists out, r. split; [exact Ha|].
  rewrite F1, F2, F3, F4, F5.
  destruct (@issues_flags _ _ _ _ (lit "Tabular environment missing.") _
              _ _ _ _ _ _ _ Hi) as (H1 & H2 & H3 & H4 & H5 & H6).
  - repeat constructor; cbn [In]; intros H; decompose [or] H; try contradiction;
      match goal with E : lit _ = lit _ |- _ => vm_compute in E; discriminate E end.
  - intros x Hin. destruct tb as [tb|].
    + right. apply In_issue_if in Hin as [_ ->].
      cbn [In]. intros H. decompose [or] H; try contradiction;
        match goal with E : lit _ = _ |- _ => vm_compute in E; discriminate E end.
    + destruct Hin as [<-|[]]. now left.
  - rewrite H1, H2, H3, H4, H5, H6, !negb_true_iff.
    repeat split; try tauto.
    + destruct tb as [tb|]; [|reflexivity].
      intros Hin. apply In_issue_if in Hin as [_ Hin].
      vm_compute in Hin. discriminate Hin.
    + intros E. destruct tb as [tb|]; [discriminate|]. now left.
Qed.

(** X11.  A report lists at most six issues, and none exactly when the
    caption, the label, the centering, the three rules and the bold
    command are there, a [tabular] was extracted and none of its rows is
    mismatched. *)
Theorem no_issue_iff_all_checks_pass (s : str) :
  exists out r,
    audit_latex_table s = Ok (out, r)
    /\ length (issues r) <= 6
    /\ (issues r = []
        <-> has_caption r = true /\ has_label r = true
            /\ has_centering r = true /\ uses_full_booktabs r = true
            /\ needs_tabular_scaffold r = false
            /\ column_mismatch_rows r = []
            /\ contains (lit "\textbf") s = true).
Proof.
  destruct (audit_report s)
    as (tb & Hx & out & r & Ha & _ & _ & _ & _ & _ & _ & _ & _ & _ & F10).
  exists out, r. split; [exact Ha|].
  rewrite <- length_zero_iff_nil, F10.
  destruct (has_caption r), (has_label r), (has_centering r),
    (uses_full_booktabs r), (needs_tabular_scaffold r),
    (column_mismatch_rows r), (contains (lit "\textbf") s);
    cbn; split; try lia; split; intros; try lia; try discriminate;
    try (repeat split; reflexivity);
    try match goal with
        | H : _ /\ _ |- _ => decompose [and] H; discriminate
        end.
Qed.

(** X12.  An expected column count in a report is at least one, and at
    least two when it stands beside the scaffold flag (it then comes
    from the fallback, which needs a separator). *)
Theorem expected_columns_at_least_one (s : str) (out : list str)
        (r : report) (n : nat) :
  audit_latex_table s = Ok (out, r) ->
  expected_columns r = Some n ->
  1 <= n /\ (needs_tabular_scaffold r = true -> 2 <= n).
Proof. exact (@expected_positive s out r n). Qed.

Lemma expected_columns_at_least_one_witness :
  exists out r,
    audit_latex_table (lit "a & b") = Ok (out, r)
    /\ expected_columns r = Some 2
    /\ needs_tabular_scaffold r = true
    /\ 2 <= 2.
Proof.
  destruct (audit_latex_table (lit "a & b")) as [[out r]|e] eqn:E;
    [|vm_compute in E; discriminate E].
  assert (He : expected_columns r = Some 2)
    by (vm_compute in E; now inversion E).
  assert (Hs : needs_tabular_scaffold r = true)
    by (vm_compute in E; now inversion E).
  exists out, r. split; [reflexivity|]. split; [exact He|]. split; [exact Hs|].
  exact (proj2 (@expected_columns_at_least_one (lit "a & b") out r 2 E He) Hs).
Defined.

(** X13.  Without a bold command and with an expected column count, the
    placeholder headers are exactly as many as that count. *)
Theorem one_placeholder_per_expected_column (s : str) (out : list str)
        (r : report) (n : nat) :
  audit_latex_table s = Ok (out, r) ->
  contains (lit "\textbf") s = false ->
  expected_columns r = Some n ->
  length (placeholder_headers r) = n.
Proof.
  intros Ha Hb He.
  destruct (@expected_positive s _ _ _ Ha He) as [Hn _].
  destruct (audit_report s)
    as (tb & Hx & out' & r' & Ha' & _ & _ & _ & _ & _ & _ & _ & F8 & _).
  rewrite (@audit_same_report s _ _ _ _ Ha Ha') in *.
  rewrite F8, Hb, length_map, length_seq, He.
  destruct n as [|n]; [lia|]. unfold or_else. cbn [truthy or_default]. lia.
Qed.

Lemma one_placeholder_per_expected_column_witness :
  exists out r,
    audit_latex_table (lit "\begin{tabular}{lcr} a & b & c \end{tabular}")
    = Ok (out, r)
    /\ expected_columns r = Some 3
    /\ length (placeholder_headers r) = 3.
Proof.
  destruct (audit_latex_table
              (lit "\begin{tabular}{lcr} a & b & c \end{tabular}"))
    as [[out r]|e] eqn:E; [|vm_compute in E; discriminate E].
  assert (He : expected_columns r = Some 3)
    by (vm_compute in E; now inversion E).
  exists out, r. split; [reflexivity|]. split; [exact He|].
  exact (@one_placeholder_per_expected_column
           (lit "\begin{tabular}{lcr} a & b & c \end{tabular}") out r 3
           E eq_refl He).
Defined.

(** X14.  The audit of a text whose first [tabular] is well nested and
    declares [n] columns: the scaffold flag is off, [n] columns are
    expected, and the rows reported are the numbers of the data rows of
    that [tabular]'s body whose cells are not [n]. *)
Theorem audit_reads_the_outermost_table (pre : str) (placement : option str)
        (spec inside post : str) (n : nat) :
  no_match_before TABULAR_BEGIN_RE
    (pre ++ opening placement spec ++ inside ++ lit "\end{tabular}" ++ post)
    (length pre) = true ->
  plain_args placement spec = true ->
  marker_free (opening_args placement spec) = true ->
  well_nested inside ->
  _count_columns_from_spec spec = Some n ->
  exists out r,
    audit_latex_table
      (pre ++ opening placement spec ++ inside ++ lit "\end{tabular}" ++ post)
    = Ok (out, r)
    /\ needs_tabular_scaffold r = false
    /\ expected_columns r = Some n
    /\ column_mismatch_rows r
       = List.map fst
           (filter (fun ir => negb (cells (snd ir) =? n))
              (numbered_data_rows inside)).
Proof.
  intros H1 H2 H3 H4 Hn.
  pose proof (@extract_deep pre placement spec inside post H1 H2 H3 H4) as Hx.
  destruct (audit_report
              (pre ++ opening placement spec ++ inside
                 ++ lit "\end{tabular}" ++ post))
    as (tb & Hx' & out & r & Ha & _ & _ & _ & _ & F5 & F6 & F7 & _).
  rewrite Hx in Hx'. inversion Hx'; subst tb. clear Hx'.
  cbn [column_spec] in *. rewrite Hn in *.
  exists out, r. split; [exact Ha|].
  pose proof (count_columns_not_zero spec) as Hz. rewrite Hn in Hz.
  destruct n as [|n]; [congruence|].
  split; [exact F5|]. split; [exact F7|].
  rewrite F6. unfold _find_column_mismatches, numbered_data_rows, data_rows,
    rows_of. cbn [body]. now rewrite scan_rows_closed.
Qed.

Lemma audit_reads_the_outermost_table_witness :
  exists out r,
    audit_latex_table
      (lit "\begin{tabular}{lc} a & b \\ c \\ d & e & f \end{tabular}")
    = Ok (out, r)
    /\ needs_tabular_scaffold r = false
    /\ expected_columns r = Some 2
    /\ column_mismatch_rows r = [2; 3].
Proof.
  exact (@audit_reads_the_outermost_table [] None (lit "lc")
           (lit " a & b \\ c \\ d & e & f ") [] 2
           eq_refl eq_refl eq_refl
           (@nested_plain (lit " a & b \\ c \\ d & e & f ") eq_refl) eq_refl).
Defined.

(** X15.  A text that lacks the opening marker or the closing marker is
    audited as having no [tabular]: the scaffold flag is set, no row is
    reported, and the expected column count is what the fallback reads
    off the text. *)
Theorem missing_marker_needs_scaffold (s : str) :
  contains (lit "\begin{tabular}") s = false
  \/ contains (lit "\end{tabular}") s = false ->
  exists out r,
    audit_latex_table s = Ok (out, r)
    /\ needs_tabular_scaffold r = true
    /\ column_mismatch_rows r = []
    /\ expected_columns r = fallback_count s.
Proof.
  intros H.
  assert (Hx : _extract_outer_tabular s = Ok None)
    by (destruct H; [now apply extract_no_marker | now apply extract_no_end]).
  destruct (audit_report s)
    as (tb & Hx' & out & r & Ha & _ & _ & _ & _ & F5 & F6 & F7 & _).
  rewrite Hx in Hx'. inversion Hx'; subst tb.
  exists out, r. repeat split; assumption.
Qed.

Lemma missing_marker_needs_scaffold_witness :
  exists out r,
    audit_latex_table (lit "\begin{tabular}{ll} a & b & c \\ d") = Ok (out, r)
    /\ needs_tabular_scaffold r = true
    /\ column_mismatch_rows r = []
    /\ expected_columns r
       = fallback_count (lit "\begin{tabular}{ll} a & b & c \\ d").
Proof.
  apply missing_marker_needs_scaffold. right. reflexivity.
Defined.

(** X16.  The column count read off a line: none for no line, for an
    empty line and for a line whose separators are all escaped; otherwise
    the separators, less the escaped ones, plus one, which is never less
    than two. *)
Theorem count_in_line_spec (line : option str) :
  _count_columns_in_line line
  = match line with
    | None => None
    | Some l =>
        if count (lit "&") l - count (lit "\&") l =? 0
        then None
        else Some (count (lit "&") l - count (lit "\&") l + 1)
    end
  /\ forall n, _count_columns_in_line line = Some n -> 2 <= n.
Proof.
  split.
  - destruct line as [l|]; [|reflexivity].
    destruct (_count_columns_in_line (Some l)) as [n|] eqn:E.
    + apply count_in_line_cells in E as (l' & El & -> & Hn).
      inversion El; subst l'. unfold cells in *.
      destruct (Nat.eqb_spec (count (lit "&") l - count (lit "\&") l) 0);
        [lia | reflexivity].
    + apply count_in_line_None in E. now rewrite E.
  - intros n E. now apply count_in_line_cells in E as (_ & _ & _ & Hn).
Qed.

Lemma count_in_line_spec_witness :
  _count_columns_in_line (Some (lit "a & b \& c")) = Some 2 /\ 2 <= 2.
Proof.
  split; [reflexivity|].
  exact (proj2 (count_in_line_spec (Some (lit "a & b \& c"))) 2 eq_refl).
Defined.

(** ** The callers *)

Section Callers.

Variable generate_content : str -> response.
Variable lower : str -> str.

Lemma lstrip_blank (s : str) : forallb isspace s = true -> lstrip s = [].
Proof.
  induction s as [|x s IH]; [reflexivity|].
  cbn [forallb lstrip]. intros H. apply andb_true_iff in H as [Hx Hs].
  rewrite Hx. now apply IH.
Qed.

Lemma strip_blank (s : str) : forallb isspace s = true -> strip s = [].
Proof. intros H. unfold strip. now rewrite (lstrip_blank s H). Qed.

Lemma nonblank_nonempty (s : str) : strip s <> [] -> s <> [].
Proof. intros H ->. now apply H. Qed.

Lemma nonempty_true {T} (l : list T) : l <> [] -> nonempty l = true.
Proof. destruct l; [contradiction | reflexivity]. Qed.

Lemma lstrip_nil_blank (s : str) : lstrip s = [] -> forallb isspace s = true.
Proof.
  induction s as [|x s IH]; [reflexivity|].
  cbn [lstrip forallb]. destruct (isspace x); [exact IH | discriminate].
Qed.

Lemma lstrip_rev_nil (s : str) : lstrip (rev s) = [] -> lstrip s = [].
Proof.
  intros H. apply lstrip_nil_blank in H. apply lstrip_blank.
  rewrite forallb_forall in *. intros x Hx. apply H. now apply in_rev in Hx.
Qed.

Lemma lstrip_idem (s : str) : lstrip (lstrip s) = lstrip s.
Proof.
  induction s as [|x s IH]; [reflexivity|].
  cbn [lstrip]. destruct (isspace x) eqn:E; [exact IH|].
  cbn [lstrip]. now rewrite E.
Qed.

Lemma strip_nil_blank (s : str) : strip s = [] -> forallb isspace s = true.
Proof.
  unfold strip, rstrip. intros H.
  apply (f_equal (@rev char)) in H. rewrite rev_involutive in H. cbn [rev] in H.
  apply lstrip_rev_nil in H. rewrite lstrip_idem in H.
  now apply lstrip_nil_blank.
Qed.

Lemma agent_blank_result (input_data : str) :
  forallb isspace input_data = true ->
  run_agent generate_content lower input_data
  = Ok ([lit "AGENT STARTED";
         lit "[Agent]: No content detected in the input. Skipping tool calls.";
         lit "  " ++ [129302%N] ++ lit " AGENT FINISHED  "],
        lit "Error: No input data provided.").
Proof.
  intros H. unfold run_agent. rewrite (strip_blank input_data H).
  cbn [nonempty negb]. now rewrite orb_true_r.
Qed.

(** The agent on an input that is not blank, step by step. *)
Lemma run_agent_steps (input_data : str) :
  strip input_data <> [] ->
  exists out out_auditor audit_results,
    let current_latex :=
      if eqb (snd (run_router generate_content lower input_data)) (lit "plain")
      then snd (run_formatter generate_content input_data)
      else input_data in
    audit_latex_table current_latex = Ok (out_auditor, audit_results)
    /\ run_agent generate_content lower input_data
       = Ok (out, snd (run_refiner generate_content current_latex audit_results)).
Proof.
  intros H. cbv zeta. unfold run_agent.
  rewrite (nonempty_true (nonblank_nonempty H)), (nonempty_true H).
  cbn [negb orb].
  destruct (run_router generate_content lower input_data) as [out_r input_type].
  cbn [snd].
  destruct (eqb input_type (lit "plain")).
  - destruct (run_formatter generate_content input_data) as [out_f current].
    cbn [snd].
    destruct (audit_report current) as (_ & _ & out_a & r & Ha & _).
    rewrite Ha. cbn [bind].
    destruct (run_refiner generate_content current r) as [out_ref final] eqn:Er.
    eexists. exists out_a, r. split; [reflexivity|]. now rewrite Er.
  - destruct (audit_report input_data) as (_ & _ & out_a & r & Ha & _).
    rewrite Ha. cbn [bind].
    destruct (run_refiner generate_content input_data r)
      as [out_ref final] eqn:Er.
    eexists. exists out_a, r. split; [reflexivity|]. now rewrite Er.
Qed.

Lemma router_latex (input_text text : str) :
  generate_content (router_prompt input_text) = Text text ->
  lower (strip text) = lit "latex" ->
  snd (run_router generate_content lower input_text) = lit "latex".
Proof. intros H E. unfold run_router. now rewrite H, E. Qed.

Lemma router_failure (input_text message : str) :
  generate_content (router_prompt input_text) = Failure message ->
  snd (run_router generate_content lower input_text) = lit "plain".
Proof. intros H. unfold run_router. now rewrite H. Qed.

End Callers.

(** X17.  The router answers [plain] or [latex] and nothing else; it
    answers [latex] only when the model's text, stripped and lowered, is
    that very word, so any other answer and any failure of the model give
    [plain]. *)
Theorem router_answers_plain_or_latex
        (generate_content : str -> response) (lower : str -> str)
        (input_text : str) :
  (snd (run_router generate_content lower input_text) = lit "plain"
   \/ snd (run_router generate_content lower input_text) = lit "latex")
  /\ (snd (run_router generate_content lower input_text) = lit "latex"
      <-> exists text,
          generate_content (router_prompt input_text) = Text text
          /\ lower (strip text) = lit "latex").
Proof.
  unfold run_router.
  destruct (generate_content (router_prompt input_text)) as [text|e].
  - cbn [existsb]. rewrite orb_false_r.
    destruct (eqb (lower (strip text)) (lit "plain")) eqn:Ep;
      destruct (eqb (lower (strip text)) (lit "latex")) eqn:El;
      cbn [negb orb snd].
    + apply eqb_eq in Ep, El. rewrite Ep in El. vm_compute in El. discriminate El.
    + apply eqb_eq in Ep. rewrite Ep. split; [now left|]. split.
      * intros H. vm_compute in H. discriminate H.
      * intros (t & Ht & Hl). inversion Ht; subst t.
        rewrite Ep in Hl. vm_compute in Hl. discriminate Hl.
    + apply eqb_eq in El. split; [now right|]. split; [|intros; exact El].
      intros _. now exists text.
    + split; [now left|]. split.
      * intros H. vm_compute in H. discriminate H.
      * intros (t & Ht & Hl). inversion Ht; subst t.
        apply eqb_eq in Hl. congruence.
  - cbn [snd]. split; [now left|]. split.
    + intros H. vm_compute in H. discriminate H.
    + intros (t & Ht & _). discriminate Ht.
Qed.

(** X18.  On an input of white space only, the empty input included, the
    agent calls no tool: whatever the model would answer, it prints its
    three lines and returns the error text. *)
Theorem agent_skips_blank_input
        (generate_content : str -> response) (lower : str -> str)
        (input_data : str) :
  forallb isspace input_data = true ->
  run_agent generate_content lower input_data
  = Ok ([lit "AGENT STARTED";
         lit "[Agent]: No content detected in the input. Skipping tool calls.";
         lit "  " ++ [129302%N] ++ lit " AGENT FINISHED  "],
        lit "Error: No input data provided.").
Proof.
  exact (@agent_blank_result generate_content lower input_data).
Qed.

Lemma agent_skips_blank_input_witness :
  run_agent (fun _ => Text (lit "latex")) (fun t => t) (lit "   " ++ [10%N; 9%N])
  = Ok ([lit "AGENT STARTED";
         lit "[Agent]: No content detected in the input. Skipping tool calls.";
         lit "  " ++ [129302%N] ++ lit " AGENT FINISHED  "],
        lit "Error: No input data provided.").
Proof.
  exact (@agent_skips_blank_input (fun _ => Text (lit "latex")) (fun t => t)
           (lit "   " ++ [10%N; 9%N]) eq_refl).
Defined.

(** X19.  The agent raises nothing, whatever the input and whatever the
    model does.  For a blank input it returns the error text.  For any
    other input it returns what the refiner gets from the model for the
    text it audited, the input itself or the formatter's answer, and the
    report of that audit: the model's text, or the refiner's error text
    with the message of the model's failure. *)
Theorem agent_always_answers
        (generate_content : str -> response) (lower : str -> str)
        (input_data : str) :
  exists out final,
    run_agent generate_content lower input_data = Ok (out, final)
    /\ (forallb isspace input_data = true ->
        final = lit "Error: No input data provided.")
    /\ (forallb isspace input_data = false ->
        exists current_latex out_auditor audit_results,
          (current_latex = input_data
           \/ current_latex = snd (run_formatter generate_content input_data))
          /\ audit_latex_table current_latex = Ok (out_auditor, audit_results)
          /\ (generate_content (refiner_prompt current_latex audit_results)
              = Text final
              \/ exists message,
                  generate_content (refiner_prompt current_latex audit_results)
                  = Failure message
                  /\ final = lit "Error in refiner: " ++ message)).
Proof.
  destruct (forallb isspace input_data) eqn:Hb.
  - rewrite (agent_blank_result generate_content lower input_data Hb).
    do 2 eexists. split; [reflexivity|]. split; [reflexivity | discriminate].
  - assert (Hs : strip input_data <> []).
    { intros E. apply strip_nil_blank in E. congruence. }
    destruct (@run_agent_steps generate_content lower input_data Hs)
      as (out & out_a & r & Ha & Hr).
    cbv zeta in Ha, Hr. rewrite Hr. do 2 eexists. split; [reflexivity|].
    split; [discriminate|]. intros _.
    match type of Ha with
    | audit_latex_table ?c = _ => exists c, out_a, r
    end.
    split.
    { destruct (eqb (snd (run_router generate_content lower input_data))
                  (lit "plain")); [now right | now left]. }
    split; [exact Ha|].
    unfold run_refiner.
    match goal with
    | |- context [generate_content ?p] =>
        destruct (generate_content p) as [text|e] eqn:E
    end; cbn [snd]; [now left | right; now exists e].
Qed.

Lemma agent_always_answers_witness :
  (exists out,
      run_agent (fun _ => Text (lit "plain")) (fun t => t) (lit "  ")
      = Ok (out, lit "Error: No input data provided."))
  /\ (exists out,
         run_agent (fun _ => Text (lit "plain")) (fun t => t) (lit "a, b")
         = Ok (out, lit "plain")).
Proof.
  split.
  - destruct (agent_always_answers (fun _ => Text (lit "plain")) (fun t => t)
                (lit "  ")) as (out & final & Hr & Hblank & _).
    exists out. rewrite Hr. now rewrite (Hblank eq_refl).
  - destruct (agent_always_answers (fun _ => Text (lit "plain")) (fun t => t)
                (lit "a, b")) as (out & final & Hr & _ & Hfull).
    exists out.
    destruct (Hfull eq_refl) as (c & oa & r & _ & _ & [H|(m & H & _)]).
    + rewrite Hr. cbv beta in H. now inversion H.
    + discriminate H.
Defined.

(** X20.  When the model fails on every call, a non-blank input still gets
    an answer.  The router falls back to [plain]; the formatter returns
    its error text; that error text is what is audited; and the agent
    prints, in this order, the router's error, the formatter's line, what
    the audit of the error text prints, the issues of that audit and the
    refiner's line, and returns the refiner's error text. *)
Theorem agent_with_the_model_down
        (generate_content : str -> response) (lower : str -> str)
        (input_data message : str) :
  (forall prompt, generate_content prompt = Failure message) ->
  forallb isspace input_data = false ->
  snd (run_router generate_content lower input_data) = lit "plain"
  /\ snd (run_formatter generate_content input_data)
     = lit "Error in formatter: " ++ message
  /\ exists out_auditor audit_results,
      audit_latex_table (lit "Error in formatter: " ++ message)
      = Ok (out_auditor, audit_results)
      /\ run_agent generate_content lower input_data
         = Ok ([lit "AGENT STARTED";
                lit "[Router Tool]: Analyzing input type...";
                lit "Error in router: " ++ message;
                lit "[Formatter Tool]: Converting plain text to LaTeX..."]
               ++ out_auditor
               ++ (if nonempty (issues audit_results)
                   then lit "[Agent]: Auditor flagged these items before refinement:"
                        :: List.map (fun issue => lit "  - " ++ issue)
                             (issues audit_results)
                   else [lit "[Agent]: Auditor did not flag any structural issues."])
               ++ [lit "[Refiner Tool]: Refining LaTeX...";
                   lit "AGENT STARTED"],
               lit "Error in refiner: " ++ message).
Proof.
  intros Hdown Hb.
  assert (Hs : strip input_data <> []).
  { intros E. apply strip_nil_blank in E. congruence. }
  split; [apply (@router_failure generate_content lower input_data message),
            Hdown|].
  split; [unfold run_formatter; now rewrite Hdown|].
  destruct (audit_report (lit "Error in formatter: " ++ message))
    as (_ & _ & out_a & r & Ha & _).
  exists out_a, r. split; [exact Ha|].
  unfold run_agent.
  rewrite (nonempty_true (nonblank_nonempty Hs)), (nonempty_true Hs).
  cbn [negb orb].
  unfold run_router. rewrite Hdown.
  change (eqb (lit "plain") (lit "plain")) with true. cbv iota.
  unfold run_formatter. rewrite Hdown.
  rewrite Ha. cbn [bind].
  unfold run_refiner. rewrite Hdown.
  cbn [app]. rewrite <- ?app_assoc. reflexivity.
Qed.

Lemma agent_with_the_model_down_witness :
  exists out,
    run_agent (fun _ => Failure (lit "quota exceeded")) (fun t => t)
      (lit "Name, Age")
    = Ok (out, lit "Error in refiner: " ++ lit "quota exceeded")
    /\ In (lit "Error in router: quota exceeded") out
    /\ In (lit "  - Tabular environment missing.") out.
Proof.
  destruct (@agent_with_the_model_down
              (fun _ => Failure (lit "quota exceeded")) (fun t => t)
              (lit "Name, Age") (lit "quota exceeded")
              (fun _ => eq_refl) eq_refl)
    as (_ & _ & out_a & r & Ha & Hr).
  eexists. split; [exact Hr|].
  assert (Hi : In (lit "Tabular environment missing.") (issues r)
               /\ nonempty (issues r) = true).
  { assert (E : issues r
                = [lit "Caption missing."; lit "Label missing.";
                   lit "Table is not centered.";
                   lit "Booktabs rules are incomplete.";
                   lit "Tabular environment missing.";
                   lit "Header row missing or not emphasized."])
      by (vm_compute in Ha; now inversion Ha).
    rewrite E. split; [|reflexivity]. cbn [In]. tauto. }
  destruct Hi as [Hi Hn]. rewrite Hn. split.
  - cbn [app In]. right. right. now left.
  - apply in_or_app. right. apply in_or_app. right.
    apply in_or_app. left. apply in_cons.
    apply in_map_iff. exists (lit "Tabular environment missing.").
    split; [reflexivity | exact Hi].
Defined.

(** X21.  When the router takes the input for LaTeX, the formatter is left
    out: the input itself is audited, and the agent returns what the
    refiner makes of the input and of that report. *)
Theorem agent_audits_latex_input_as_it_is
        (generate_content : str -> response) (lower : str -> str)
        (input_data text : str) :
  generate_content (router_prompt input_data) = Text text ->
  lower (strip text) = lit "latex" ->
  forallb isspace input_data = false ->
  exists out out_auditor audit_results,
    audit_latex_table input_data = Ok (out_auditor, audit_results)
    /\ run_agent generate_content lower input_data
       = Ok (out,
             snd (run_refiner generate_content input_data audit_results)).
Proof.
  intros Hg Hl Hb.
  assert (Hs : strip input_data <> []).
  { intros E. apply strip_nil_blank in E. congruence. }
  destruct (@run_agent_steps generate_content lower input_data Hs)
    as (out & out_a & r & Ha & Hr).
  cbv zeta in Ha, Hr.
  rewrite (@router_latex generate_content lower input_data text Hg Hl)
    in Ha, Hr.
  change (eqb (lit "latex") (lit "plain")) with false in Ha, Hr.
  cbv iota in Ha, Hr.
  exists out, out_a, r. split; assumption.
Qed.

Lemma agent_audits_latex_input_as_it_is_witness :
  exists out out_auditor audit_results,
    audit_latex_table (lit "a & b") = Ok (out_auditor, audit_results)
    /\ run_agent (fun _ => Text (lit " LaTeX ")) (fun _ => lit "latex")
         (lit "a & b")
       = Ok (out,
             snd (run_refiner (fun _ => Text (lit " LaTeX ")) (lit "a & b")
                    audit_results)).
Proof.
  exact (@agent_audits_latex_input_as_it_is
           (fun _ => Text (lit " LaTeX ")) (fun _ => lit "latex")
           (lit "a & b") (lit " LaTeX ") eq_refl eq_refl eq_refl).
Defined.

(** X22.  What the refiner tells the model about a report of the audit:
    one suggestion line for each issue, or the one default line when
    there is no issue; the same number of summary lines, and one more
    when rows are mismatched, in which case the summary is the issues,
    each after a dash, followed by the line of the mismatched rows (the
    line that says there is no issue never stands beside it). *)
Theorem refiner_lines_of_an_audit (s : str) (out : list str) (r : report) :
  audit_latex_table s = Ok (out, r) ->
  length (suggestion_lines r) = Nat.max 1 (length (issues r))
  /\ length (audit_summary_lines r)
     = length (suggestion_lines r)
       + (if nonempty (column_mismatch_rows r) then 1 else 0)
  /\ (column_mismatch_rows r <> [] ->
      audit_summary_lines r
      = List.map (fun item => lit "- " ++ item) (issues r)
        ++ [lit "- Column mismatches on rows: "
            ++ of_nat_list (column_mismatch_rows r)]).
Proof.
  intros Ha.
  destruct (audit_report s)
    as (tb & Hx & out' & r' & Ha' & _ & _ & _ & _ & F5 & F6 & _ & _ & F9 & F10).
  rewrite (@audit_same_report s _ _ _ _ Ha Ha') in *. clear Ha'.
  assert (Hi : nonempty (column_mismatch_rows r) = true ->
               nonempty (issues r) = true).
  { intros Hm. destruct (issues r) as [|i l] eqn:Ei; [|reflexivity].
    cbn [length] in F10. rewrite Hm in F10.
    destruct (needs_tabular_scaffold r); cbn [Nat.b2n] in F10;
      repeat match type of F10 with
             | context [Nat.b2n ?b] =>
                 let k := fresh "k" in set (k := Nat.b2n b) in F10; clearbody k
             end; exfalso; clear - F10; lia. }
  assert (Hlen : length (suggestion_lines r) = Nat.max 1 (length (issues r))).
  { unfold suggestion_lines. rewrite F9.
    destruct (suggestions r); cbn [nonempty length];
      [reflexivity | rewrite length_map; cbn [length]].
    symmetry. apply Nat.max_r. apply le_n_S, Nat.le_0_l. }
  split; [exact Hlen|]. split.
  - rewrite Hlen. unfold audit_summary_lines.
    destruct (column_mismatch_rows r) as [|m l]; cbn [nonempty].
    + destruct (issues r); cbn [nonempty length];
        [reflexivity | rewrite length_map; cbn [length]].
      cbv delta [str char] in *. lia.
    + rewrite (Hi eq_refl), length_app, length_map. cbn [length].
      specialize (Hi eq_refl). destruct (issues r); [discriminate|].
      cbn [length]. cbv delta [str char] in *. lia.
  - intros Hm. unfold audit_summary_lines.
    rewrite (nonempty_true Hm), (Hi (nonempty_true Hm)). reflexivity.
Qed.

Lemma refiner_lines_of_an_audit_witness :
  exists out r,
    audit_latex_table (lit "\begin{tabular}{ll} a \\ \end{tabular}")
    = Ok (out, r)
    /\ column_mismatch_rows r = [1]
    /\ length (suggestion_lines r) = 6
    /\ length (audit_summary_lines r) = 7.
Proof.
  destruct (audit_latex_table (lit "\begin{tabular}{ll} a \\ \end{tabular}"))
    as [[out r]|e] eqn:E; [|vm_compute in E; discriminate E].
  assert (Hm : column_mismatch_rows r = [1])
    by (vm_compute in E; now inversion E).
  assert (Hi : length (issues r) = 6)
    by (vm_compute in E; now inversion E).
  destruct (@refiner_lines_of_an_audit
              (lit "\begin{tabular}{ll} a \\ \end{tabular}") out r E)
    as (H1 & H2 & _).
  exists out, r. split; [reflexivity|]. split; [exact Hm|].
  rewrite H2, H1, Hi, Hm. split; reflexivity.
Defined.

Section Stripped.

Lemma lstrip_head (s : str) (x : char) (rest : str) :
  lstrip s = x :: rest -> isspace x = false.
Proof.
  induction s as [|y s IH]; [discriminate|].
  cbn [lstrip]. destruct (isspace y) eqn:E; [exact IH|].
  intros H. inversion H; subst. exact E.
Qed.

Lemma lstrip_suffix (s : str) : exists w, s = w ++ lstrip s.
Proof.
  induction s as [|y s [w IH]]; [now exists []|].
  cbn [lstrip]. destruct (isspace y).
  - exists (y :: w). cbn [app]. now rewrite <- IH.
  - now exists [].
Qed.

Lemma rstrip_prefix (s : str) : exists w, s = rstrip s ++ w.
Proof.
  unfold rstrip. destruct (lstrip_suffix (rev s)) as [w H].
  exists (rev w). rewrite <- rev_app_distr, <- H. now rewrite rev_involutive.
Qed.

(** A stripped text neither begins nor ends with white space. *)
Lemma strip_ends (s : str) :
  (forall x rest, strip s = x :: rest -> isspace x = false)
  /\ (forall x rest, strip s = rest ++ [x] -> isspace x = false).
Proof.
  unfold strip. split; intros x rest H.
  - destruct (rstrip_prefix (lstrip s)) as [w Hw].
    rewrite H in Hw. cbn [app] in Hw. now apply lstrip_head in Hw.
  - unfold rstrip in H. apply (f_equal (@rev char)) in H.
    rewrite rev_involutive, rev_app_distr in H. cbn [rev app] in H.
    now apply lstrip_head in H.
Qed.

End Stripped.

(** X23.  When the model answers, what the formatter returns neither
    begins nor ends with white space. *)
Theorem formatter_answer_is_stripped
        (generate_content : str -> response) (plain_text text : str) :
  generate_content (formatter_prompt plain_text) = Text text ->
  (forall x rest,
      snd (run_formatter generate_content plain_text) = x :: rest ->
      isspace x = false)
  /\ (forall x rest,
         snd (run_formatter generate_content plain_text) = rest ++ [x] ->
         isspace x = false).
Proof.
  intros H. unfold run_formatter. rewrite H. cbn [snd]. apply strip_ends.
Qed.

Lemma formatter_answer_is_stripped_witness :
  snd (run_formatter (fun _ => Text (lit "  a & b " ++ [10%N])) (lit "a b"))
  = lit "a & b"
  /\ isspace 97%N = false /\ isspace 98%N = false.
Proof.
  split; [reflexivity|].
  destruct (@formatter_answer_is_stripped
              (fun _ => Text (lit "  a & b " ++ [10%N])) (lit "a b")
              (lit "  a & b " ++ [10%N]) eq_refl) as [Hfirst Hlast].
  split.
  - exact (Hfirst 97%N (lit " & b") eq_refl).
  - exact (Hlast 98%N (lit "a & ") eq_refl).
Defined.

(** ** The line of the fallback and the number of placeholder headers *)

Section Fallback.

Lemma passed_over_test (line : str) :
  contains (lit "&") line && negb (startswith (lit "%") (strip line))
  = negb (passed_over line).
Proof.
  unfold passed_over.
  now destruct (contains (lit "&") line), (startswith (lit "%") (strip line)).
Qed.

(** The fallback looks at the first line that is not passed over. *)
Lemma first_line_found (latex_code : str) (before : list str)
      (line : str) (after : list str) :
  splitlines latex_code = before ++ line :: after ->
  forallb passed_over before = true ->
  contains (lit "&") line = true ->
  startswith (lit "%") (strip line) = false ->
  first_line_with_amp latex_code = Some line.
Proof.
  unfold first_line_with_amp. intros -> Hb Hc Hs.
  induction before as [|l before IH]; cbn [app find].
  - now rewrite Hc, Hs.
  - cbn [forallb] in Hb. apply andb_true_iff in Hb as [Hl Hb].
    rewrite passed_over_test, Hl. cbn [negb]. now apply IH.
Qed.

Lemma first_line_missing (latex_code : str) :
  forallb passed_over (splitlines latex_code) = true ->
  first_line_with_amp latex_code = None.
Proof.
  unfold first_line_with_amp. intros H.
  induction (splitlines latex_code) as [|l lines IH]; [reflexivity|].
  cbn [forallb] in H. apply andb_true_iff in H as [Hl H].
  cbn [find]. rewrite passed_over_test, Hl. cbn [negb]. now apply IH.
Qed.

Lemma splitlines_from_line (line l rest : str) :
  single_line l = true ->
  splitlines_from line (l ++ rest) = splitlines_from (line ++ l) rest.
Proof.
  unfold single_line. revert line; induction l as [|x l IH]; intros line H.
  - now rewrite app_nil_r.
  - cbn [forallb] in H. apply andb_true_iff in H as [Hx H].
    apply negb_true_iff in Hx.
    cbn [app splitlines_from]. rewrite Hx, (IH (line ++ [x]) H), <- app_assoc.
    reflexivity.
Qed.

Lemma splitlines_from_feed (line rest : str) :
  splitlines_from line (10%N :: rest) = line :: splitlines_from [] rest.
Proof. destruct rest; reflexivity. Qed.

Lemma join_cons (sep a : str) (l : list str) :
  l <> [] -> join sep (a :: l) = a ++ sep ++ join sep l.
Proof. destruct l; [contradiction | reflexivity]. Qed.

(** In a text made of lines joined by line feeds, the lines up to a
    non-empty one are the first lines [splitlines] gives. *)
Lemma splitlines_join (before : list str) (line : str) (after : list str) :
  forallb single_line (before ++ [line]) = true ->
  line <> [] ->
  exists after',
    splitlines (join [10%N] (before ++ line :: after))
    = before ++ line :: after'.
Proof.
  unfold splitlines. intros H Hne.
  induction before as [|l before IH]; cbn [app] in *.
  - cbn [forallb] in H. apply andb_true_iff in H as [Hl _].
    destruct after as [|a after].
    + exists []. cbn [join]. rewrite <- (app_nil_r line) at 1.
      rewrite (@splitlines_from_line [] line [] Hl). cbn [app splitlines_from].
      destruct line; [contradiction | reflexivity].
    + rewrite join_cons by discriminate.
      rewrite (@splitlines_from_line [] line _ Hl). cbn [app].
      rewrite splitlines_from_feed. eexists. reflexivity.
  - cbn [forallb] in H. apply andb_true_iff in H as [Hl H].
    destruct (IH H) as [after' E].
    rewrite join_cons by (destruct before; discriminate).
    rewrite (@splitlines_from_line [] l _ Hl). cbn [app].
    rewrite splitlines_from_feed, E. eexists. reflexivity.
Qed.

Lemma contains_nonempty (sub s : str) :
  sub <> [] -> contains sub s = true -> s <> [].
Proof. intros Hs H ->. destruct sub; [contradiction | discriminate]. Qed.

(** With nothing from the extraction, the report expects what the
    fallback counts. *)
Lemma expected_is_fallback (s : str) (out : list str) (r : report) :
  extraction_count s = Ok None ->
  audit_latex_table s = Ok (out, r) ->
  expected_columns r = fallback_count s.
Proof.
  intros H Ha.
  destruct (audit_report s)
    as (tb & Hx & out' & r' & Ha' & _ & _ & _ & _ & _ & _ & F7 & _ & _ & _).
  rewrite (@audit_same_report s _ _ _ _ Ha Ha') in *.
  unfold extraction_count in H. rewrite Hx in H. cbn [bind] in H.
  rewrite F7. destruct tb as [tb|]; [|reflexivity].
  inversion H as [H']. rewrite H'. now destruct (fallback_count s).
Qed.

Lemma count_of_line (line : str) :
  _count_columns_in_line (Some line)
  = if count (lit "&") line - count (lit "\&") line =? 0
    then None
    else Some (count (lit "&") line - count (lit "\&") line + 1).
Proof.
  destruct (_count_columns_in_line (Some line)) as [n|] eqn:En.
  - apply count_in_line_cells in En as (l & El & -> & Hn).
    inversion El; subst l. unfold cells in *.
    destruct (Nat.eqb_spec (count (lit "&") line - count (lit "\&") line) 0);
      [lia | reflexivity].
  - apply count_in_line_None in En. now rewrite En.
Qed.

Lemma expected_None_fallback (s : str) (out : list str) (r : report) :
  audit_latex_table s = Ok (out, r) ->
  expected_columns r = None -> fallback_count s = None.
Proof.
  intros Ha He.
  destruct (audit_report s)
    as (tb & Hx & out' & r' & Ha' & _ & _ & _ & _ & _ & _ & F7 & _ & _ & _).
  rewrite (@audit_same_report s _ _ _ _ Ha Ha') in *.
  rewrite F7 in He. destruct tb as [tb|]; [|exact He].
  destruct (_count_columns_from_spec (column_spec tb)) as [[|k]|];
    destruct (fallback_count s); congruence.
Qed.

End Fallback.

(** C5, amended.  When the extraction resolves no column count, the audit
    goes through the lines of the text in order and stops at the first
    one that holds a cell separator and is no comment; the lines before
    it, which hold no separator or are comments, are passed over, and the
    lines after it are never looked at.  If separators are left in that
    line once the escaped ones are taken out, their number plus one
    becomes the expected column count of the report; if every separator
    of the line is escaped, nothing is adopted and the report has no
    expected column count.  This is stated for the lines [splitlines]
    gives, and again for a text written as lines joined by line feeds.
    When every line is passed over, the report has no expected column
    count. *)
Theorem fallback_adopts (s : str) :
  extraction_count s = Ok None ->
  exists out r,
    audit_latex_table s = Ok (out, r)
    /\ (forall before line after,
           splitlines s = before ++ line :: after ->
           forallb passed_over before = true ->
           contains (lit "&") line = true ->
           startswith (lit "%") (strip line) = false ->
           expected_columns r
           = if count (lit "&") line - count (lit "\&") line =? 0
             then None
             else Some (count (lit "&") line - count (lit "\&") line + 1))
    /\ (forall before line after,
           s = join [10%N] (before ++ line :: after) ->
           forallb single_line (before ++ [line]) = true ->
           forallb passed_over before = true ->
           contains (lit "&") line = true ->
           startswith (lit "%") (strip line) = false ->
           expected_columns r
           = if count (lit "&") line - count (lit "\&") line =? 0
             then None
             else Some (count (lit "&") line - count (lit "\&") line + 1))
    /\ (forallb passed_over (splitlines s) = true ->
        expected_columns r = None).
Proof.
  intros H.
  destruct (audit_report s) as (_ & _ & out & r & Ha & _).
  exists out, r. split; [exact Ha|].
  rewrite (@expected_is_fallback s out r H Ha). unfold fallback_count.
  assert (Hlines : forall before line after,
             splitlines s = before ++ line :: after ->
             forallb passed_over before = true ->
             contains (lit "&") line = true ->
             startswith (lit "%") (strip line) = false ->
             _count_columns_in_line (first_line_with_amp s)
             = if count (lit "&") line - count (lit "\&") line =? 0
               then None
               else Some (count (lit "&") line - count (lit "\&") line + 1)).
  { intros before line after Hsplit Hb Hc Hs.
    rewrite (@first_line_found s before line after Hsplit Hb Hc Hs).
    apply count_of_line. }
  split; [exact Hlines|]. split.
  - intros before line after -> Hsingle Hb Hc Hs.
    destruct (@splitlines_join before line after Hsingle) as [after' E].
    { apply (@contains_nonempty (lit "&")); [discriminate | exact Hc]. }
    exact (Hlines before line after' E Hb Hc Hs).
  - intros Hall. now rewrite (first_line_missing s Hall).
Qed.

(** In the first text a comment and a line without separator come before
    the line [a & b], and a line of three cells comes after it: two
    columns are expected.  In the second text the first line with a
    separator has it escaped, and the line after it is not looked at:
    no column count is expected. *)
Lemma fallback_adopts_witness :
  (exists out r,
      audit_latex_table
        (join [10%N] [lit "  % x & y & z"; lit "no separator here";
                      lit "a & b"; lit "c & d & e"])
      = Ok (out, r)
      /\ expected_columns r = Some 2)
  /\ (exists out r,
         audit_latex_table (join [10%N] [lit "a \& b"; lit "c & d"])
         = Ok (out, r)
         /\ expected_columns r = None).
Proof.
  split.
  - destruct (@fallback_adopts
                (join [10%N] [lit "  % x & y & z"; lit "no separator here";
                              lit "a & b"; lit "c & d & e"]) eq_refl)
      as (out & r & Ha & Hl & _ & _).
    exists out, r. split; [exact Ha|].
    exact (Hl [lit "  % x & y & z"; lit "no separator here"] (lit "a & b")
             [lit "c & d & e"] eq_refl eq_refl eq_refl eq_refl).
  - destruct (@fallback_adopts (join [10%N] [lit "a \& b"; lit "c & d"])
                eq_refl)
      as (out & r & Ha & _ & Hj & _).
    exists out, r. split; [exact Ha|].
    exact (Hj [] (lit "a \& b") [lit "c & d"] eq_refl eq_refl eq_refl
             eq_refl eq_refl).
Defined.

(** C10.  The placeholder headers are there exactly when the text has no
    bold command, and there are none when it has one.  Without a bold
    command they are the labels [Column 1] to [Column k], with [k] the
    larger of one and the first of these that is a positive number: the
    expected column count of the report, the fallback count, three.  In
    closed form: as many labels as the report expects columns, and three
    when it expects none. *)
Theorem placeholder_headers_spec (s : str) :
  exists out r,
    audit_latex_table s = Ok (out, r)
    /\ (placeholder_headers r <> [] <-> contains (lit "\textbf") s = false)
    /\ (contains (lit "\textbf") s = true -> placeholder_headers r = [])
    /\ (contains (lit "\textbf") s = false ->
        placeholder_headers r
        = column_labels
            (Nat.max 1
               match expected_columns r with
               | Some (S n) => S n
               | _ =>
                   match fallback_count s with
                   | Some (S m) => S m
                   | _ => 3
                   end
               end)
        /\ (forall n,
               expected_columns r = Some n ->
               placeholder_headers r = column_labels n
               /\ length (placeholder_headers r) = n)
        /\ (expected_columns r = None ->
            placeholder_headers r
            = [lit "Column 1"; lit "Column 2"; lit "Column 3"])).
Proof.
  destruct (audit_report s)
    as (tb & Hx & out & r & Ha & _ & _ & _ & _ & _ & _ & _ & F8 & _ & _).
  exists out, r. split; [exact Ha|].
  rewrite F8, labels_shift.
  destruct (contains (lit "\textbf") s).
  - repeat split; congruence.
  - split; [|split; [discriminate|]].
    + split; [reflexivity|]. intros _. unfold column_labels.
      destruct (Nat.max 1 (or_default (or_else (expected_columns r) (fallback_count s)) 3))
        eqn:E; [lia | discriminate].
    + intros _. split; [|split].
      * f_equal. f_equal. unfold or_else, or_default.
        now destruct (expected_columns r) as [[|n]|],
                     (fallback_count s) as [[|m]|].
      * intros n He.
        destruct (@expected_positive s out r n Ha He) as [Hn _].
        rewrite He. destruct n as [|n]; [lia|].
        unfold or_else. cbn [truthy or_default].
        replace (Nat.max 1 (S n)) with (S n) by lia.
        split; [reflexivity|].
        unfold column_labels. now rewrite length_map, length_seq.
      * intros He. rewrite He, (@expected_None_fallback s out r Ha He).
        reflexivity.
Qed.

(** The text [a & b] has no bold command and the fallback counts two
    columns: two labels.  The text [\textbf{a} & b] has one: none. *)
Lemma placeholder_headers_spec_witness :
  (exists out r,
      audit_latex_table (lit "a & b") = Ok (out, r)
      /\ placeholder_headers r = [lit "Column 1"; lit "Column 2"])
  /\ (exists out r,
         audit_latex_table (lit "\textbf{a} & b") = Ok (out, r)
         /\ placeholder_headers r = []).
Proof.
  split.
  - destruct (placeholder_headers_spec (lit "a & b"))
      as (out & r & Ha & _ & _ & Hl).
    exists out, r. split; [exact Ha|].
    destruct (Hl eq_refl) as (_ & Hn & _).
    assert (He : expected_columns r = Some 2)
      by (vm_compute in Ha; now inversion Ha).
    exact (proj1 (Hn 2 He)).
  - destruct (placeholder_headers_spec (lit "\textbf{a} & b"))
      as (out & r & Ha & _ & Hb & _).
    exists out, r. split; [exact Ha | exact (Hb eq_refl)].
Defined.
